(** * card_library: a shallow embedding of [cards.py]

    The Python module defines three classes, [Card], [Joker] (a subclass of
    [Card]) and [Deck], and one helper, [_flatten_nested_collections].  The
    embedding keeps the source's names, a class being a module.

    - Python values that reach the modelled methods are the inductive [pyval].
    - Exceptions are the enumeration [exn]; a method that may raise returns
      [result A].
    - A [Deck] is its attribute [cards], a Python list of card objects; the
      mutating methods take the list and return the new list.
    - The two class variables of [Card] that can be changed at run time are
      the record [config], passed to every method that reads them. *)

From Stdlib Require Import ZArith Lia Permutation Ascii.
From stdpp Require Import base list gmap strings sorting pretty.

Local Open Scope Z_scope.
Local Set Warnings "-register-all".

(** ** Exceptions and the error monad *)

Inductive exn : Set :=
| TypeError
| ValueError
| IndexError
| UnboundLocalError.

Inductive result (A : Type) : Type :=
| Ok (a : A)
| Raise (e : exn).
Arguments Ok {A} a.
Arguments Raise {A} e.

#[global] Instance result_ret : MRet result := λ A a, Ok a.
#[global] Instance result_bind : MBind result := λ A B f m,
  match m with
  | Ok a => f a
  | Raise e => Raise e
  end.

#[global] Instance exn_eq_dec : EqDecision exn.
Proof. solve_decision. Defined.

(** [raises m e]: the computation ends by raising exactly [e]. *)
Definition raises {A} (m : result A) (e : exn) : Prop := m = Raise e.

(** Monadic map and filter: a Python comprehension whose body may raise stops
    at the first element whose body raises. *)
Fixpoint mapM {A B} (f : A → result B) (l : list A) : result (list B) :=
  match l with
  | [] => Ok []
  | x :: l' => y ← f x; ys ← mapM f l'; Ok (y :: ys)
  end.

Fixpoint filterM {A} (f : A → result bool) (l : list A) : result (list A) :=
  match l with
  | [] => Ok []
  | x :: l' =>
      match f x with
      | Ok b => ys ← filterM f l'; Ok (if b then x :: ys else ys)
      | Raise e => Raise e
      end
  end.

(** A [for] loop that updates an accumulator and may raise. *)
Fixpoint foldM {A B} (f : B → A → result B) (acc : B) (l : list A) : result B :=
  match l with
  | [] => Ok acc
  | x :: l' => acc' ← f acc x; foldM f acc' l'
  end.

(** ** Card objects and Python values *)

(** [type(c)] of a card object: [Card] or its subclass [Joker]. *)
Inductive card_class : Set := CardT | JokerT.

#[global] Instance card_class_eq_dec : EqDecision card_class.
Proof. solve_decision. Defined.

(** The instance attributes set by [Card.__init__] / [Joker.__init__]. *)
Record card : Set := mkCard {
  cls : card_class;
  rank : Z;
  suit : Z;
  color : bool;
  face_card : bool
}.

#[global] Instance card_eq_dec : EqDecision card.
Proof. solve_decision. Defined.

(** The values the modelled methods receive: [None], booleans, integers,
    strings, lists, tuples, card objects, decks and slice objects (whose three
    fields are [None] or an integer). *)
Inductive pyval : Type :=
| VNone
| VBool (b : bool)
| VInt (z : Z)
| VStr (s : string)
| VList (items : list pyval)
| VTuple (items : list pyval)
| VCard (c : card)
| VDeck (cards : list card)
| VSlice (start stop step : option Z).

(** [type(v) in [Card, Joker]] *)
Definition is_card (v : pyval) : bool :=
  match v with VCard _ => true | _ => false end.

(** [type(v) in (int, str)]; [type(True)] is [bool], not [int]. *)
Definition is_int_or_str (v : pyval) : bool :=
  match v with VInt _ | VStr _ => true | _ => false end.

(** ** Class [Card] *)

Module Card.

(** [Card.__suits] and [Card.__ranks] *)
Definition __suits : gmap string Z :=
  list_to_map [("Clubs", 1); ("Spades", 2); ("Diamonds", 3); ("Hearts", 4)].

Definition __ranks : gmap string Z :=
  list_to_map [("Ace", 1);
               ("2", 2); ("3", 3); ("4", 4); ("5", 5); ("6", 6); ("7", 7);
               ("8", 8); ("9", 9); ("10", 10);
               ("Jack", 11); ("Queen", 12); ("King", 13)].

(** [Card.__short_form_str] and [Card.__ace_worth_1] *)
Record config : Set := mkConfig {
  __short_form_str : bool;
  __ace_worth_1 : bool
}.

(** The class variables as the class statement initialises them. *)
Definition default_config : config :=
  {| __short_form_str := false; __ace_worth_1 := false |}.

Definition set_ace_worth_1 (worth_1 : pyval) (cfg : config) : result config :=
  match worth_1 with
  | VBool b => Ok {| __short_form_str := __short_form_str cfg; __ace_worth_1 := b |}
  | _ => Raise TypeError
  end.

Definition get_ace_value (cfg : config) : Z :=
  if __ace_worth_1 cfg then 1 else 14.

(** [set(Card.__ranks.keys())] and [set(Card.__suits.keys())] *)
Definition get_ranks : gset string := dom __ranks.
Definition get_suits : gset string := dom __suits.

(** [Card.__init__(self, rank, suit)] *)
Definition __init__ (rank suit : pyval) : result card :=
  if negb (is_int_or_str rank && is_int_or_str suit) then Raise TypeError
  else
    r ← match rank with
        | VStr s => match __ranks !! s with
                    | Some r => Ok r
                    | None => Raise ValueError
                    end
        | VInt r => Ok r
        | _ => Raise TypeError
        end;
    s ← match suit with
        | VStr s => match __suits !! s with
                    | Some s' => Ok s'
                    | None => Raise ValueError
                    end
        | VInt s => Ok s
        | _ => Raise TypeError
        end;
    if (1 <=? r) && (r <=? 13) && (1 <=? s) && (s <=? 4) then
      Ok {| cls := CardT; rank := r; suit := s;
            color := 2 <? s; face_card := 10 <? r |}
    else Raise ValueError.

(** A call of the class [Card]: Python binds the positional arguments to
    [rank] and [suit] and raises [TypeError] before the body runs when one
    is missing or one is left over. *)
Definition new (args : list pyval) : result card :=
  match args with
  | [rank; suit] => __init__ rank suit
  | _ => Raise TypeError
  end.

Definition same_rank (self : card) (other : pyval) : result bool :=
  match other with
  | VCard o => Ok (bool_decide (rank self = rank o))
  | _ => Raise ValueError
  end.

Definition same_suit (self : card) (other : pyval) : result bool :=
  match other with
  | VCard o => Ok (bool_decide (suit self = suit o))
  | _ => Raise ValueError
  end.

Definition same_color (self : card) (other : pyval) : result bool :=
  match other with
  | VCard o => Ok (bool_decide (color self = color o))
  | _ => Raise ValueError
  end.

(** [has_color]: a string is first turned into [color == "Red"], then
    [self.color == color] is evaluated.  A boolean equals the integers 0 and
    1; against a card object the comparison falls to [Card.__eq__] of that
    object, which raises; against the other values it is false. *)
Definition has_color (self : card) (c : pyval) : result bool :=
  match c with
  | VStr s => Ok (bool_decide (color self = bool_decide (s = "Red")))
  | VBool b => Ok (bool_decide (color self = b))
  | VInt z => Ok (bool_decide ((if color self then 1 else 0) = z))
  | VCard _ => Raise ValueError
  | _ => Ok false
  end.

(** The rank used by the four ordering methods. *)
Definition effective_rank (cfg : config) (c : card) : Z :=
  if bool_decide (rank c = 1) then get_ace_value cfg else rank c.

Definition __lt__ (cfg : config) (self : card) (other : pyval) : result bool :=
  match other with
  | VCard o =>
      let other_rank := effective_rank cfg o in
      let self_rank := effective_rank cfg self in
      Ok (self_rank <? other_rank)
  | _ => Raise ValueError
  end.

Definition __le__ (cfg : config) (self : card) (other : pyval) : result bool :=
  match other with
  | VCard o =>
      let other_rank := effective_rank cfg o in
      let self_rank := effective_rank cfg self in
      Ok (self_rank <=? other_rank)
  | _ => Raise ValueError
  end.

Definition __eq__ (self : card) (other : pyval) : result bool :=
  match other with
  | VCard o =>
      r ← same_rank self other;
      if negb r then Ok false else
      s ← same_suit self other;
      if negb s then Ok false else
      c ← same_color self other;
      if negb c then Ok false else
      Ok (bool_decide (face_card self = face_card o))
  | _ => Raise ValueError
  end.

Definition __ne__ (self : card) (other : pyval) : result bool :=
  b ← __eq__ self other; Ok (negb b).

Definition __gt__ (cfg : config) (self : card) (other : pyval) : result bool :=
  match other with
  | VCard o =>
      let other_rank := effective_rank cfg o in
      let self_rank := effective_rank cfg self in
      Ok (other_rank <? self_rank)
  | _ => Raise ValueError
  end.

Definition __ge__ (cfg : config) (self : card) (other : pyval) : result bool :=
  match other with
  | VCard o =>
      let other_rank := effective_rank cfg o in
      let self_rank := effective_rank cfg self in
      Ok (other_rank <=? self_rank)
  | _ => Raise ValueError
  end.

(** [_check_correct_attributes], dispatched on the object's class
    ([Joker] overrides it).  The type tests of the source always pass
    here, the attributes being typed. *)
Definition _check_correct_attributes (self : card) : result unit :=
  match cls self with
  | CardT =>
      if (rank self <? 1) || (13 <? rank self) then Raise ValueError
      else if (suit self <? 1) || (4 <? suit self) then Raise ValueError
      else Ok ()
  | JokerT =>
      if negb (rank self =? 0) then Raise ValueError
      else if negb (suit self =? 0) then Raise ValueError
      else if negb (face_card self) then Raise ValueError
      else Ok ()
  end.

(** [Card.copy(self)]: a new [Card(1, 1)] whose four attributes are then
    overwritten. *)
Definition copy (self : card) : result card :=
  copy_card ← __init__ (VInt 1) (VInt 1);
  Ok {| cls := cls copy_card; rank := rank self; suit := suit self;
        color := color self; face_card := face_card self |}.

(** [Card.get_suit(self)]; a dictionary's [get] gives [None] for a key it
    does not hold. *)
Definition get_suit (self : card) : result pyval :=
  _ ← _check_correct_attributes self;
  Ok (match (list_to_map [(1, "Clubs"); (2, "Spades"); (3, "Diamonds");
                          (4, "Hearts")] : gmap Z string) !! suit self with
      | Some name => VStr name
      | None => VNone
      end).

(** [Card.get_rank(self)], [pretty] being [str] on integers. *)
Definition get_rank (self : card) : result pyval :=
  _ ← _check_correct_attributes self;
  if rank self =? 1 then Ok (VStr "Ace")
  else if 10 <? rank self then
    Ok (match (list_to_map [(11, "Jack"); (12, "Queen"); (13, "King")]
                 : gmap Z string) !! rank self with
        | Some name => VStr name
        | None => VNone
        end)
  else Ok (VStr (pretty (rank self))).

(** [Card.get_color(self)] *)
Definition get_color (self : card) : result pyval :=
  _ ← _check_correct_attributes self;
  Ok (VStr (if color self then "Red" else "Black")).

End Card.

(** ** Class [Joker] *)

Module Joker.

(** [Joker.__init__(self, color)]: [super().__init__(1, 1)] runs first. *)
Definition __init__ (color : pyval) : result card :=
  base ← Card.__init__ (VInt 1) (VInt 1);
  c ← match color with
      | VStr s =>
          if bool_decide (s = "Red") || bool_decide (s = "Black")
          then Ok (VBool (bool_decide (s = "Red")))
          else Raise ValueError
      | _ => Ok color
      end;
  match c with
  | VBool b =>
      Ok {| cls := JokerT; suit := 0; rank := 0; face_card := true; color := b |}
  | _ => Raise TypeError
  end.

(** [Joker.get_rank(self)] and [Joker.get_suit(self)] *)
Definition get_rank (self : card) : result pyval := Ok (VStr "Joker").

Definition get_suit (self : card) : result pyval :=
  _ ← Card._check_correct_attributes self;
  Card.get_color self.

(** [Joker.copy(self)]: a new [Joker(True)], then overwritten. *)
Definition copy (self : card) : result card :=
  copy_joker ← __init__ (VBool true);
  Ok {| cls := cls copy_joker; rank := rank self; suit := suit self;
        color := color self; face_card := face_card self |}.

End Joker.

(** A method called on a card object is the one of the object's class. *)
Definition card_copy (c : card) : result card :=
  match cls c with CardT => Card.copy c | JokerT => Joker.copy c end.

Definition card_get_rank (c : card) : result pyval :=
  match cls c with CardT => Card.get_rank c | JokerT => Joker.get_rank c end.

Definition card_get_suit (c : card) : result pyval :=
  match cls c with CardT => Card.get_suit c | JokerT => Joker.get_suit c end.

(** The comparison operators of the language applied to a card on the left:
    [c < v] is [type(c).__lt__(c, v)], and so on. *)
Inductive cmp_op : Set := Lt | Le | Gt | Ge | Eq.

Definition compare (cfg : Card.config) (op : cmp_op) (c : card) (v : pyval)
  : result bool :=
  match op with
  | Lt => Card.__lt__ cfg c v
  | Le => Card.__le__ cfg c v
  | Gt => Card.__gt__ cfg c v
  | Ge => Card.__ge__ cfg c v
  | Eq => Card.__eq__ c v
  end.

(** ** Python lists *)

Section PyList.
Context {A : Type}.

(** [len(l)] *)
Definition len (l : list A) : Z := Z.of_nat (length l).

(** [l[i]] for an index already known to satisfy [0 <= i < len(l)]. *)
Definition getitem (l : list A) (i : Z) : option A := l !! Z.to_nat i.

(** [l.pop(i)]: a negative index counts from the end, an index out of range
    raises [IndexError]; the popped element and the shorter list. *)
Definition pop (l : list A) (i : Z) : result (A * list A) :=
  let i := if i <? 0 then i + len l else i in
  if (i <? 0) || (len l <=? i) then Raise IndexError
  else match getitem l i with
       | Some x => Ok (x, delete (Z.to_nat i) l)
       | None => Raise IndexError
       end.

(** [l[i:i] = batch]: the bound of a slice is clamped into [0, len(l)]
    after a negative one has been counted from the end. *)
Definition slice_bound (l : list A) (i : Z) : nat :=
  Z.to_nat (if i <? 0 then Z.max (i + len l) 0 else Z.min i (len l)).

Definition insert_slice (l : list A) (i : Z) (batch : list A) : list A :=
  take (slice_bound l i) l ++ batch ++ drop (slice_bound l i) l.

(** [slice(start, stop, step).indices(len(l))] *)
Definition slice_indices (l : list A) (start stop step : option Z)
  : result (Z * Z * Z) :=
  let step := default 1 step in
  if step =? 0 then Raise ValueError
  else
    let lower := if step <? 0 then -1 else 0 in
    let upper := if step <? 0 then len l - 1 else len l in
    let adjust (v : option Z) (dflt : Z) :=
      match v with
      | None => dflt
      | Some i => if i <? 0 then Z.max (i + len l) lower else Z.min i upper
      end in
    Ok (adjust start (if step <? 0 then upper else lower),
        adjust stop (if step <? 0 then lower else upper),
        step).

(** [l[start:stop:step]] *)
Definition getslice (l : list A) (start stop step : option Z)
  : result (list A) :=
  '(start, stop, step) ← slice_indices l start stop step;
  let count :=
    if 0 <? step then
      (if start <? stop then (stop - start - 1) / step + 1 else 0)
    else
      (if stop <? start then (start - stop - 1) / (- step) + 1 else 0) in
  Ok (omap (λ k : nat, getitem l (start + Z.of_nat k * step))
           (seq 0 (Z.to_nat count))).

(** Membership, search and removal through an equality test [eqb], which
    for card objects is [Card.__eq__]. *)
Variable eqb : A → A → bool.

(** [x in l] *)
Definition contains (x : A) (l : list A) : bool := existsb (λ y, eqb y x) l.

(** [l.remove(x)]: drops the first element equal to [x]. *)
Fixpoint remove_first (x : A) (l : list A) : result (list A) :=
  match l with
  | [] => Raise ValueError
  | y :: l' => if eqb y x then Ok l' else l'' ← remove_first x l'; Ok (y :: l'')
  end.

(** [sorted(l, key=key)], with [le] the order of the keys.  Python's sort
    is stable, and a stable sort has one possible result: the one of this
    insertion sort, which puts an element before the later elements of an
    equal key. *)
Section Sorted.
Context {K : Type} (key : A → K) (le : K → K → bool).

Fixpoint insert_sorted (x : A) (l : list A) : list A :=
  match l with
  | [] => [x]
  | y :: l' => if le (key x) (key y) then x :: l else y :: insert_sorted x l'
  end.

Definition sorted (l : list A) : list A := foldr insert_sorted [] l.
End Sorted.

End PyList.

(** Python's order on pairs of integers. *)
Definition pair_le (a b : Z * Z) : bool :=
  (a.1 <? b.1) || ((a.1 =? b.1) && (a.2 <=? b.2)).

(** [l.sort(reverse=True)] on integers: stable for the reversed order. *)
Definition sort_reverse (l : list Z) : list Z := sorted id (λ a b, b <=? a) l.

(** [Card.__eq__] on two card objects, where it cannot raise. *)
Definition card_eqb (a b : card) : bool :=
  match Card.__eq__ a (VCard b) with
  | Ok r => r
  | Raise _ => false
  end.

(** ** [_flatten_nested_collections] *)

Definition _flatten_nested_collections (collection : list pyval) : list pyval :=
  flat_map (λ arg, match arg with
                   | VList items | VTuple items => items
                   | VDeck cards => VCard <$> cards
                   | _ => [arg]
                   end) collection.

(** The loop [for card in l: if type(card) not in [Card, Joker]: raise
    TypeError], returning the cards it has checked. *)
Definition only_cards (l : list pyval) : result (list card) :=
  mapM (λ v, match v with VCard c => Ok c | _ => Raise TypeError end) l.

(** ** List objects on the heap

    [get_random] works on a copy of [self.cards] and changes the copy in
    place; to tell the copy from the original, list objects live in a heap
    and are named by their location. *)

Module Heap.

Abbreviation loc := positive (only parsing).
Abbreviation heap := (gmap positive (list card)) (only parsing).

(** A new list object holding [l]. *)
Definition alloc (l : list card) (h : heap) : loc * heap :=
  let p := fresh (dom h) in (p, <[p := l]> h).

Definition read (p : loc) (h : heap) : list card := default [] (h !! p).

Definition write (p : loc) (l : list card) (h : heap) : heap := <[p := l]> h.

End Heap.

(** [random.choice(seq)], [draw] being the next output of the generator:
    every element of a non-empty [seq] is the choice for some [draw]. *)
Definition choice {A} (draw : nat) (seq : list A) : option A :=
  seq !! (draw mod length seq)%nat.

(** [random.randint(a, b)] for [a <= b], from the next output of the
    generator: every integer from [a] to [b] is the result for some [draw]. *)
Definition randint (draw : nat) (a b : Z) : Z :=
  a + Z.of_nat draw `mod` (b - a + 1).

(** More of Python's lists: [l1 == l2], which looks at the lengths first and
    then goes pair by pair, [l.index(x)] and [l * n]. *)
Section PyListMore.
Context {A : Type} (eqb : A → A → bool).

Fixpoint all_equal (l1 l2 : list A) : bool :=
  match l1, l2 with
  | [], [] => true
  | x :: l1', y :: l2' => eqb x y && all_equal l1' l2'
  | _, _ => false
  end.

Definition list_eq (l1 l2 : list A) : bool :=
  if bool_decide (length l1 = length l2) then all_equal l1 l2 else false.

Fixpoint index_of (x : A) (l : list A) : result Z :=
  match l with
  | [] => Raise ValueError
  | y :: l' => if eqb y x then Ok 0 else i ← index_of x l'; Ok (1 + i)
  end.

Definition repeat_list (l : list A) (n : Z) : list A :=
  concat (replicate (Z.to_nat n) l).

End PyListMore.

(** ** Class [Deck] *)

Module Deck.
Section Deck.

(** The order in which the interpreter iterates over a set of strings.  It
    is fixed while a process runs and is not chosen by the program; what the
    language promises about it is [set_iteration] below. *)
Variable set_iter : gset string → list string.

(** [generate_standard_deck()] *)
Definition generate_standard_deck : result (list card) :=
  rows ← mapM (λ suit,
                 mapM (λ rank, Card.new [VStr rank; VStr suit])
                      (set_iter Card.get_ranks))
              (set_iter Card.get_suits);
  black ← Joker.__init__ (VStr "Black");
  red ← Joker.__init__ (VStr "Red");
  Ok (concat rows ++ [black; red]).

(** [Deck.__init__(self, *cards)]: the value of [self.cards]. *)
Definition __init__ (cards : list pyval) : result (list card) :=
  match cards with
  | [] => generate_standard_deck
  | _ => only_cards (_flatten_nested_collections cards)
  end.

(** [Deck.__getitem__(self, item)] *)
Definition __getitem__ (cards : list card) (item : pyval) : result pyval :=
  match item with
  | VSlice start stop step =>
      match start with
      | None => Raise TypeError
      | Some i =>
          let start' := if i <? 0 then len cards + i else i in
          if negb ((0 <=? start') && (start' <? len cards)) then Raise IndexError
          else
            match stop with
            | None => Raise TypeError
            | Some j =>
                let stop' := if j <? 0 then len cards + j else j in
                if negb ((0 <=? stop') && (stop' <=? len cards))
                then Raise IndexError
                else
                  part ← getslice cards start stop step;
                  c ← Card.new [VList (VCard <$> part)];
                  Ok (VCard c)
            end
      end
  | VInt i =>
      let i := if i <? 0 then len cards + i else i in
      if negb ((0 <=? i) && (i <? len cards)) then Raise IndexError
      else match getitem cards i with
           | Some c => Ok (VCard c)
           | None => Raise IndexError
           end
  | _ => Raise TypeError
  end.

(** [Deck.add(self, *cards, index=None)] *)
Definition add (self : list card) (cards : list pyval) (index : pyval)
  : result (list card) :=
  _ ← match index with
      | VNone => Ok ()
      | VInt i =>
          if (i <? - len self) || (len self <? i) then Raise IndexError else Ok ()
      | _ => Raise TypeError
      end;
  match cards with
  | [] => Ok self
  | _ =>
      batch ← only_cards (_flatten_nested_collections cards);
      match index with
      | VInt i => Ok (insert_slice self i batch)
      | _ => Ok (self ++ batch)
      end
  end.

(** The first loop of [remove]: one element of the flattened arguments is
    put with the indexes or with the cards to remove. *)
Definition remove_classify (self : list card)
    (acc : list Z * list card) (elt : pyval) : result (list Z * list card) :=
  let '(indexes_to_remove, cards_to_remove) := acc in
  match elt with
  | VInt e =>
      let e := if e <? 0 then len self + e else e in
      if (0 <=? e) && (e <? len self) then
        Ok (if negb (existsb (Z.eqb e) indexes_to_remove)
            then indexes_to_remove ++ [e] else indexes_to_remove,
            cards_to_remove)
      else Raise IndexError
  | VCard c =>
      if contains card_eqb c self
      then Ok (indexes_to_remove, cards_to_remove ++ [c])
      else Raise ValueError
  | _ => Raise TypeError
  end.

Fixpoint remove_partition (self : list card) (acc : list Z * list card)
    (elts : list pyval) : result (list Z * list card) :=
  match elts with
  | [] => Ok acc
  | elt :: elts' =>
      acc' ← remove_classify self acc elt; remove_partition self acc' elts'
  end.

(** The second loop: [self.cards.pop(i)] under its guard. *)
Definition remove_index (self : list card) (i : Z) : list card :=
  if (0 <=? i) && (i <? len self)
  then match pop self i with Ok (_, l) => l | Raise _ => self end
  else self.

(** The third loop: [self.cards.remove(c)] under its guard. *)
Definition remove_card (self : list card) (c : card) : list card :=
  if contains card_eqb c self
  then match remove_first card_eqb c self with Ok l => l | Raise _ => self end
  else self.

(** [Deck.remove(self, *cards_or_indexes)] *)
Definition remove (self : list card) (cards_or_indexes : list pyval)
  : result (list card) :=
  match cards_or_indexes with
  | [] => Ok self
  | _ =>
      '(indexes_to_remove, cards_to_remove) ←
        remove_partition self ([], [])
          (_flatten_nested_collections cards_or_indexes);
      let indexes_to_remove := sort_reverse indexes_to_remove in
      let self := fold_left remove_index indexes_to_remove self in
      Ok (fold_left remove_card cards_to_remove self)
  end.

(** The sort keys of [sort_by_suit] and [sort_by_rank]. *)
Definition key_rank (cfg : Card.config) (c : card) : Z :=
  if negb (rank c =? 1) then rank c else Card.get_ace_value cfg.

Definition sort_by_suit (cfg : Card.config) (self : list card) : list card :=
  sorted (λ c, (suit c, key_rank cfg c)) pair_le self.

Definition sort_by_rank (cfg : Card.config) (self : list card) : list card :=
  sorted (λ c, (key_rank cfg c, suit c)) pair_le self.

(** [Deck.get(self, *indexes)] *)
Definition get (self : list card) (indexes : list pyval) : result pyval :=
  match indexes with
  | [] =>
      match last self with
      | Some c => Ok (VCard c)
      | None => Raise IndexError
      end
  | _ =>
      retrieved_cards ←
        mapM (λ it,
                match it with
                | VInt i =>
                    let i := if i <? 0 then len self + i else i in
                    if (0 <=? i) && (i <? len self) then
                      match getitem self i with
                      | Some c => Ok c
                      | None => Raise IndexError
                      end
                    else Raise IndexError
                | _ => Raise TypeError
                end)
             (_flatten_nested_collections indexes);
      match retrieved_cards with
      | [c] => Ok (VCard c)
      | _ => d ← __init__ [VList (VCard <$> retrieved_cards)]; Ok (VDeck d)
      end
  end.

(** [Deck.draw(self, *indexes)]: the returned value and the new
    [self.cards].  Only an object whose type is exactly [Card] is returned
    as it is; a [Joker] or a [Deck] goes through the [Deck] constructor. *)
Definition draw (self : list card) (indexes : list pyval)
  : result (pyval * list card) :=
  retrieved_cards ← get self indexes;
  self' ← remove self indexes;
  ret ← match retrieved_cards with
        | VCard {| cls := CardT |} => Ok retrieved_cards
        | _ => d ← __init__ [retrieved_cards]; Ok (VDeck d)
        end;
  Ok (ret, self').

(** [Deck.get_random(self, amount)]: [self] is the location of
    [self.cards], [draws] the outputs of the random generator to come.  The
    loop runs while [amount > 0], [amount] going down by one each time, that
    is [Z.to_nat amount] times at most. *)
Fixpoint get_random_loop (amount : nat) (draws : nat → nat)
    (possible_cards cards : Heap.loc) (h : Heap.heap) : result Heap.heap :=
  match amount with
  | O => Ok h
  | S amount' =>
      if bool_decide (len (Heap.read possible_cards h) > 0) then
        match choice (draws O) (Heap.read possible_cards h) with
        | None => Raise IndexError
        | Some card =>
            rest ← remove_first card_eqb card (Heap.read possible_cards h);
            let h := Heap.write possible_cards rest h in
            let h := Heap.write cards (Heap.read cards h ++ [card]) h in
            get_random_loop amount' (λ n, draws (S n)) possible_cards cards h
        end
      else Ok h
  end.

Definition get_random (self : Heap.loc) (amount : Z) (draws : nat → nat)
    (h : Heap.heap) : result (pyval * Heap.heap) :=
  let '(possible_cards, h) := Heap.alloc (Heap.read self h) h in
  let '(cards, h) := Heap.alloc [] h in
  h ← get_random_loop (Z.to_nat amount) draws possible_cards cards h;
  match Heap.read cards h with
  | [c] => Ok (VCard c, h)
  | cs => d ← __init__ [VList (VCard <$> cs)]; Ok (VDeck d, h)
  end.

(** *** [select] *)

(** [[rank] if type(rank) in (int, str) else list(rank)]: lists, tuples
    and decks can be iterated over, the other values cannot. *)
Definition criteria_list (v : pyval) : result (list pyval) :=
  match v with
  | VInt _ | VStr _ => Ok [v]
  | VList items | VTuple items => Ok items
  | VDeck cards => Ok (VCard <$> cards)
  | _ => Raise TypeError
  end.

(** [separate_exclusions(criteria)]: the exclusions, and [criteria] as the
    function leaves it.  The loop goes from the last index to the first, so
    the element at the head is handled last. *)
Fixpoint separate_exclusions (criteria : list pyval) : list pyval * list pyval :=
  match criteria with
  | [] => ([], [])
  | c :: rest =>
      let '(excl, kept) := separate_exclusions rest in
      match c with
      | VStr (String "!"%char s) => (excl ++ [VStr s], kept)
      | VInt z => if z <? 0 then (excl ++ [VInt (- z)], kept) else (excl, c :: kept)
      | _ => (excl, c :: kept)
      end
  end.

(** [get_test_card()] of the rank stage, for the current value [r].  Of the
    values that are neither [int] nor [str] only [False] passes the test
    [r == 0]; the others end on [TypeError], from the set lookup when they
    cannot be hashed and from the type test when they can. *)
Definition get_test_card_rank (r : pyval) : result card :=
  match r with
  | VStr s =>
      if bool_decide (s ∈ Card.get_ranks) then Card.new [r; VInt 1]
      else if bool_decide (s = "Joker") then Joker.__init__ (VBool false)
      else Raise ValueError
  | VInt z =>
      if (1 <=? z) && (z <=? 13) then Card.new [r; VInt 1]
      else if z =? 0 then Joker.__init__ (VBool false)
      else Raise ValueError
  | VBool false => Joker.__init__ (VBool false)
  | _ => Raise TypeError
  end.

(** [get_test_card()] of the suit stage. *)
Definition get_test_card_suit (s : pyval) : result card :=
  match s with
  | VStr n =>
      if bool_decide (n ∈ Card.get_suits) then Card.new [VInt 1; s]
      else Raise ValueError
  | VInt z =>
      if (1 <=? z) && (z <=? 4) then Card.new [VInt 1; s]
      else if z =? 0 then Joker.__init__ (VBool false)
      else Raise ValueError
  | VBool false => Joker.__init__ (VBool false)
  | _ => Raise TypeError
  end.

(** One of the two stages [if rank is not None: ...] and
    [if suit is not None: ...], which differ by [get_test_card] and by the
    method [same] they call.  [get_test_card] is called once for every card
    the comprehension visits.  The [del] statement that ends the stage
    raises when the loop variable was never bound, that is when neither loop
    had an element to run on. *)
Definition select_stage (get_test_card : pyval → result card)
    (same : card → pyval → result bool)
    (selected_cards : list card) (criteria : pyval) : result (list card) :=
  match criteria with
  | VNone => Ok selected_cards
  | _ =>
      criteria ← criteria_list criteria;
      let '(exclusions, criteria) := separate_exclusions criteria in
      selected_cards ←
        foldM (λ selected_cards r,
                 filterM (λ card, t ← get_test_card r;
                                  b ← same card (VCard t);
                                  Ok (negb b))
                         selected_cards)
              selected_cards exclusions;
      filtered_cards ←
        foldM (λ filtered_cards r,
                 more ← filterM (λ card, t ← get_test_card r;
                                         same card (VCard t))
                                selected_cards;
                 Ok (filtered_cards ++ more))
              [] criteria;
      match exclusions, criteria with
      | [], [] => Raise UnboundLocalError
      | _, _ => Ok filtered_cards
      end
  end.

(** [Deck.select(self, rank, suit, color, face_card)]: the [cards] of the
    deck that is returned. *)
Definition select (self : list card) (rank suit color face_card : pyval)
  : result (list card) :=
  let selected_cards := self in
  selected_cards ←
    select_stage get_test_card_rank Card.same_rank selected_cards rank;
  selected_cards ←
    select_stage get_test_card_suit Card.same_suit selected_cards suit;
  selected_cards ←
    match color with
    | VNone => Ok selected_cards
    | VStr s =>
        if negb (bool_decide (s = "Black") || bool_decide (s = "Red"))
        then Raise ValueError
        else filterM (λ card, Card.has_color card color) selected_cards
    | VBool _ => filterM (λ card, Card.has_color card color) selected_cards
    | _ => Raise TypeError
    end;
  selected_cards ←
    match face_card with
    | VNone => Ok selected_cards
    | VBool b =>
        Ok (List.filter (λ card, let '{| face_card := f |} := card in bool_decide (f = b))
                        selected_cards)
    | _ => Raise TypeError
    end;
  __init__ [VList (VCard <$> selected_cards)].

(** [Deck.__len__(self)] *)
Definition __len__ (self : list card) : Z := len self.

(** [Deck.__setitem__(self, key, value)].  In [key < 0] a boolean counts as
    0 or 1, a card object answers with the [ValueError] of [Card.__lt__], the
    other values cannot be compared with an integer. *)
Definition __setitem__ (self : list card) (key value : pyval)
  : result (list card) :=
  match value with
  | VCard c =>
      key ← match key with
            | VInt k => Ok k
            | VBool b => Ok (if b then 1 else 0)
            | VCard _ => Raise ValueError
            | _ => Raise TypeError
            end;
      let key := if key <? 0 then len self + key else key in
      if negb ((0 <=? key) && (key <? len self)) then Raise IndexError
      else Ok (<[Z.to_nat key := c]> self)
  | _ => Raise TypeError
  end.

(** [Deck.__contains__(self, item)]: [item in self.cards] compares the
    cards of the list with [item], one after the other, by [el == item] with
    the card of the list on the left, that is by [Card.__eq__]. *)
Fixpoint __contains__ (self : list card) (item : pyval) : result bool :=
  match self with
  | [] => Ok false
  | el :: rest =>
      match Card.__eq__ el item with
      | Ok true => Ok true
      | Ok false => __contains__ rest item
      | Raise e => Raise e
      end
  end.

(** [Deck.__add__(self, other_deck)] and [Deck.__mul__(self, num)] *)
Definition __add__ (self : list card) (other_deck : pyval)
  : result (list card) :=
  match other_deck with
  | VDeck cards => __init__ [VList (VCard <$> (self ++ cards))]
  | _ => Raise TypeError
  end.

Definition __mul__ (self : list card) (num : pyval) : result (list card) :=
  match num with
  | VInt n =>
      if n <? 0 then Raise ValueError
      else __init__ [VList (VCard <$> repeat_list self n)]
  | _ => Raise ValueError
  end.

(** [Deck.__eq__(self, other_deck)] and [Deck.__ne__(self, other_deck)] *)
Definition __eq__ (self : list card) (other_deck : pyval) : bool :=
  match other_deck with
  | VDeck cards => list_eq card_eqb self cards
  | _ => false
  end.

Definition __ne__ (self : list card) (other_deck : pyval) : bool :=
  negb (__eq__ self other_deck).

(** [Deck.index(self, *cards)] *)
Definition index (self : list card) (cards : list pyval) : result pyval :=
  match cards with
  | [] => Ok VNone
  | _ =>
      card_indexes ←
        mapM (λ card,
                match card with
                | VCard c =>
                    if contains card_eqb c self then index_of card_eqb c self
                    else Raise ValueError
                | _ => Raise TypeError
                end)
             (_flatten_nested_collections cards);
      match card_indexes with
      | [i] => Ok (VInt i)
      | _ => Ok (VTuple (VInt <$> card_indexes))
      end
  end.

(** [Deck.copy(self)] *)
Definition copy (self : list card) : result (list card) :=
  copies ← mapM card_copy self;
  __init__ [VList (VCard <$> copies)].

(** [Deck.draw_random(self, amount)]: the value returned and the new
    [self.cards].  [cards] collects what each [draw] returned, a card object
    or a deck. *)
Fixpoint draw_random_loop (amount : nat) (draws : nat → nat)
    (self : list card) (cards : list pyval) : result (list pyval * list card) :=
  match amount with
  | O => Ok (cards, self)
  | S amount' =>
      if bool_decide (len self > 0) then
        '(card, self') ← draw self [VInt (randint (draws O) 0 (len self - 1))];
        draw_random_loop amount' (λ n, draws (S n)) self' (cards ++ [card])
      else Ok (cards, self)
  end.

Definition draw_random (self : list card) (amount : Z) (draws : nat → nat)
  : result (pyval * list card) :=
  '(cards, self) ← draw_random_loop (Z.to_nat amount) draws self [];
  match cards with
  | [c] => Ok (c, self)
  | _ => d ← __init__ [VList cards]; Ok (VDeck d, self)
  end.

End Deck.
End Deck.

(** * Specification-side definitions *)

(** The cards used by the scenarios, as the constructors build them. *)
Definition ace_of_clubs : card :=
  {| cls := CardT; rank := 1; suit := 1; color := false; face_card := false |}.
Definition two_of_clubs : card :=
  {| cls := CardT; rank := 2; suit := 1; color := false; face_card := false |}.
Definition three_of_clubs : card :=
  {| cls := CardT; rank := 3; suit := 1; color := false; face_card := false |}.
Definition ten_of_spades : card :=
  {| cls := CardT; rank := 10; suit := 2; color := false; face_card := false |}.
Definition queen_of_clubs : card :=
  {| cls := CardT; rank := 12; suit := 1; color := false; face_card := true |}.
Definition black_joker : card :=
  {| cls := JokerT; rank := 0; suit := 0; color := false; face_card := true |}.
Definition red_joker : card :=
  {| cls := JokerT; rank := 0; suit := 0; color := true; face_card := true |}.

(** What Python promises about iterating over a set: every element comes
    once, in some order. *)
Definition set_iteration (set_iter : gset string → list string) : Prop :=
  ∀ X, set_iter X ≡ₚ elements X.

(** One such order, for the closed examples. *)
Definition an_iteration_order : gset string → list string := elements.

(** The card of a rank and a suit given by number, and by name. *)
Definition card_of (r s : Z) : card :=
  {| cls := CardT; rank := r; suit := s; color := 2 <? s; face_card := 10 <? r |}.

Definition card_named (rank_name suit_name : string) : card :=
  card_of (default 0 (Card.__ranks !! rank_name))
          (default 0 (Card.__suits !! suit_name)).

Definition rank_names : list string :=
  ["Ace"; "2"; "3"; "4"; "5"; "6"; "7"; "8"; "9"; "10"; "Jack"; "Queen"; "King"].

Definition suit_names : list string := ["Clubs"; "Spades"; "Diamonds"; "Hearts"].

(** The 52 cards of the four suits and thirteen ranks, suit by suit. *)
Definition french_52 : list card :=
  s ← [1; 2; 3; 4]; r ← [1; 2; 3; 4; 5; 6; 7; 8; 9; 10; 11; 12; 13]; [card_of r s].

(** A deck of three cards and a heap holding a deck of two, for the closed
    examples. *)
Definition three_clubs : list card :=
  [ace_of_clubs; two_of_clubs; three_of_clubs].

Definition small_heap : gmap positive (list card) :=
  {[ 1%positive := [ace_of_clubs; two_of_clubs] ]}.

(** The cards a call has returned: one card object, or the cards of a deck. *)
Definition cards_of (v : pyval) : list card :=
  match v with
  | VCard c => [c]
  | VDeck cards => cards
  | _ => []
  end.

(** [i] when it is not negative, [len + i] when it is. *)
Definition resolve (n i : Z) : Z := if i <? 0 then n + i else i.

(** [l] without the elements whose position is in [positions], the position
    of the head being [n]; the elements that stay keep their order. *)
Fixpoint omit_from {A} (n : nat) (positions : list Z) (l : list A) : list A :=
  match l with
  | [] => []
  | x :: l' =>
      if existsb (Z.eqb (Z.of_nat n)) positions
      then omit_from (S n) positions l'
      else x :: omit_from (S n) positions l'
  end.

(** The elements of [l] whose position is not the resolved form of one of
    [indexes], in the order of [l]. *)
Definition without_positions {A} (l : list A) (indexes : list Z) : list A :=
  omit_from 0 (resolve (len l) <$> indexes) l.

(** [l1] holds the cards of [l2] in some order, as [Card.__eq__] sees them. *)
Definition same_cards (l1 l2 : list card) : Prop :=
  ∃ l, l ≡ₚ l2 ∧ Forall2 (λ x y, card_eqb x y = true) l1 l.

(** Every card of the deck passes [_check_correct_attributes]. *)
Definition correct_attributes (cards : list card) : Prop :=
  Forall (λ c, Card._check_correct_attributes c = Ok ()) cards.

(** An argument that stands for a group of cards: a card object, a list or
    a tuple of card objects, a deck. *)
Inductive is_group : pyval → list card → Prop :=
| group_card (c : card) : is_group (VCard c) [c]
| group_list (cs : list card) : is_group (VList (VCard <$> cs)) cs
| group_tuple (cs : list card) : is_group (VTuple (VCard <$> cs)) cs
| group_deck (cs : list card) : is_group (VDeck cs) cs.

(** The elements of [l] at the positions [indexes] stand for, in the order
    of [indexes]. *)
Definition at_positions {A} (l : list A) (indexes : list Z) : list A :=
  omap (λ i, getitem l (resolve (len l) i)) indexes.

(** What [draw] returns for one card: the object itself when its class is
    [Card], a deck holding it otherwise. *)
Definition returned_by_draw (c : card) : pyval :=
  match cls c with
  | CardT => VCard c
  | JokerT => VDeck [c]
  end.

(** The number of cards of [l] that [Card.__eq__] finds equal to [c]. *)
Definition count_equal (c : card) (l : list card) : nat :=
  length (List.filter (λ y, card_eqb y c) l).

(** The cards of [l] that are not equal to [c], in their order. *)
Definition others (c : card) (l : list card) : list card :=
  List.filter (λ y, negb (card_eqb y c)) l.

(** Integer criteria of [select]: the positive ones are inclusions, the
    negative ones exclusions of their opposite. *)
Definition included (crit : list Z) : list Z := List.filter (λ z, 0 <? z) crit.

Definition excluded (crit : list Z) : list Z :=
  Z.opp <$> List.filter (λ z, z <? 0) crit.

(** For each inclusion in turn, the cards of [l] whose attribute is the
    inclusion and is not excluded, in the order of [l]. *)
Definition selected_by (attr : card → Z) (crit : list Z) (l : list card)
  : list card :=
  v ← included crit;
  List.filter (λ c, bool_decide (attr c = v)
                    && negb (existsb (Z.eqb (attr c)) (excluded crit))) l.

(** An optional scalar criterion as an argument of [select], and the test it
    stands for. *)
Definition int_criterion (o : option Z) : pyval :=
  match o with Some z => VInt z | None => VNone end.

Definition bool_criterion (o : option bool) : pyval :=
  match o with Some b => VBool b | None => VNone end.

Definition meets {A} `{EqDecision A} (o : option A) (x : A) : bool :=
  match o with Some v => bool_decide (x = v) | None => true end.

(** * Properties *)

(** Case analysis on the integer tests of a goal. *)
Ltac ztests :=
  repeat match goal with
         | |- context [?a <? ?b] => destruct (Z.ltb_spec a b)
         | |- context [?a <=? ?b] => destruct (Z.leb_spec a b)
         | |- context [?a =? ?b] => destruct (Z.eqb_spec a b)
         end; simpl; try lia.

Section Properties.

Variable set_iter : gset string → list string.

(** *** Card comparisons *)

(** C2 (as amended): whatever the configuration, the card and the operator
    among [<], [<=], [>], [>=], [==], comparing the card with a value that
    is neither a [Card] nor a [Joker] raises [ValueError]. *)
Theorem compare_non_card_raises_ValueError cfg op (c : card) (v : pyval) :
  is_card v = false → raises (compare cfg op c v) ValueError.
Proof.
  intros Hv. unfold raises.
  destruct v; try discriminate Hv; destruct op; reflexivity.
Qed.

(** *** [Deck.__getitem__] with a slice *)

(** C6: on a non-empty deck, [deck[start:stop]] with integer bounds that
    pass the two range tests raises [TypeError]: the list cut out of
    [self.cards] is the only argument of the call of [Card]. *)
Theorem getitem_slice_raises_TypeError (cards : list card) (start stop : Z) :
  cards ≠ [] →
  - len cards ≤ start < len cards →
  - len cards ≤ stop ≤ len cards →
  raises (Deck.__getitem__ cards (VSlice (Some start) (Some stop) None))
         TypeError.
Proof.
  intros _ Hstart Hstop. unfold raises, Deck.__getitem__. cbv zeta.
  destruct (Z.ltb_spec start 0), (Z.ltb_spec stop 0); ztests; reflexivity.
Qed.

(** *** [Deck.add] *)

Lemma slice_bound_minus_1 (prefix : list card) (final : card) :
  slice_bound (prefix ++ [final]) (-1) = length prefix.
Proof.
  unfold slice_bound, len. rewrite length_app. simpl. lia.
Qed.

(** C7: on a non-empty deck, [add(..., index=-1)] with arguments that
    flatten to the cards [batch] puts [batch], in its order, between the
    cards before the last one and the last one. *)
Theorem add_index_minus_1 (self : list card) (cards : list pyval)
    (batch : list card) :
  self ≠ [] →
  only_cards (_flatten_nested_collections cards) = Ok batch →
  ∃ prefix final,
    self = prefix ++ [final] ∧
    Deck.add self cards (VInt (-1)) = Ok (prefix ++ batch ++ [final]).
Proof.
  intros Hne Hbatch.
  destruct (exists_last Hne) as (prefix & final & ->).
  exists prefix, final. split; [done|].
  unfold Deck.add.
  assert (((-1 <? - len (prefix ++ [final])) || (len (prefix ++ [final]) <? -1))
          = false) as ->.
  { unfold len. rewrite length_app. simpl. ztests. }
  cbn [mbind result_bind].
  destruct cards as [|arg cards].
  - cbn in Hbatch. injection Hbatch as <-. done.
  - rewrite Hbatch. cbn [mbind result_bind]. f_equal.
    unfold insert_slice. rewrite slice_bound_minus_1.
    rewrite take_app_length, drop_app_length. done.
Qed.

(** *** [Deck.remove] *)

(** C4: [remove(0, Card(1, 1))] on the deck of [Card(1, 1)] and
    [Card(2, 1)].  The first loop accepts both arguments, the index loop
    pops [Card(1, 1)], the card loop finds no card equal to it and removes
    nothing; the call returns and the deck is [Card(2, 1)] alone. *)
Theorem remove_index_and_its_card :
  Card.new [VInt 1; VInt 1] = Ok ace_of_clubs ∧
  Card.new [VInt 2; VInt 1] = Ok two_of_clubs ∧
  let deck := [ace_of_clubs; two_of_clubs] in
  let args := [VInt 0; VCard ace_of_clubs] in
  Deck.remove_partition deck ([], []) (_flatten_nested_collections args)
    = Ok ([0], [ace_of_clubs]) ∧
  fold_left Deck.remove_index (sort_reverse [0]) deck = [two_of_clubs] ∧
  fold_left Deck.remove_card [ace_of_clubs] [two_of_clubs] = [two_of_clubs] ∧
  Deck.remove deck args = Ok [two_of_clubs].
Proof. repeat split; vm_compute; reflexivity. Qed.

(** *** Sorting *)

(** C8: with the class variables as the class statement sets them (Ace
    high), [sort_by_rank] on the deck built from [Card(1, 1)],
    [Joker("Red")], [Card(10, 2)], [Card("Queen", 1)] gives the red Joker,
    the ten, the Queen, the Ace. *)
Theorem sort_by_rank_scenario :
  Card.new [VInt 1; VInt 1] = Ok ace_of_clubs ∧
  Joker.__init__ (VStr "Red") = Ok red_joker ∧
  Card.new [VInt 10; VInt 2] = Ok ten_of_spades ∧
  Card.new [VStr "Queen"; VInt 1] = Ok queen_of_clubs ∧
  ∃ deck,
    Deck.__init__ set_iter [VCard ace_of_clubs; VCard red_joker;
                            VCard ten_of_spades; VCard queen_of_clubs]
      = Ok deck ∧
    Deck.sort_by_rank Card.default_config deck
      = [red_joker; ten_of_spades; queen_of_clubs; ace_of_clubs].
Proof.
  repeat split; try (vm_compute; reflexivity).
  eexists. split; vm_compute; reflexivity.
Qed.

(** *** [Deck.draw] followed by [Deck.add] *)

Lemma resolve_range (n i : Z) :
  - n ≤ i < n → 0 ≤ resolve n i < n.
Proof. unfold resolve. intros H. destruct (Z.ltb_spec i 0); lia. Qed.

Lemma getitem_in_range {A} (l : list A) (k : Z) :
  0 ≤ k < len l → ∃ x, getitem l k = Some x.
Proof.
  intros H. unfold getitem. apply lookup_lt_is_Some. unfold len in H. lia.
Qed.

Lemma pop_in_range {A} (l : list A) (k : Z) :
  0 ≤ k < len l → ∃ x, pop l k = Ok (x, delete (Z.to_nat k) l).
Proof.
  intros H. destruct (getitem_in_range l k H) as [x Hx]. exists x.
  unfold pop. destruct (Z.ltb_spec k 0); [lia|].
  destruct (Z.ltb_spec k 0); [lia|].
  destruct (Z.leb_spec (len l) k); [lia|]. cbn. by rewrite Hx.
Qed.

Lemma remove_index_in_range (self : list card) (k : Z) :
  0 ≤ k < len self → Deck.remove_index self k = delete (Z.to_nat k) self.
Proof.
  intros H. unfold Deck.remove_index.
  destruct (pop_in_range self k H) as [x ->].
  destruct (Z.leb_spec 0 k); [|lia]. destruct (Z.ltb_spec k (len self)); [|lia].
  reflexivity.
Qed.

Lemma get_one_index (self : list card) (i : Z) :
  - len self ≤ i < len self →
  ∃ c, getitem self (resolve (len self) i) = Some c ∧
       Deck.get set_iter self [VInt i] = Ok (VCard c).
Proof.
  intros H. pose proof (resolve_range _ _ H) as Hk.
  destruct (getitem_in_range self _ Hk) as [c Hc].
  exists c. split; [done|].
  unfold Deck.get. cbn [_flatten_nested_collections flat_map app mapM].
  fold (resolve (len self) i). rewrite Hc.
  destruct (Z.leb_spec 0 (resolve (len self) i)); [|lia].
  destruct (Z.ltb_spec (resolve (len self) i) (len self)); [|lia].
  reflexivity.
Qed.

Lemma remove_one_index (self : list card) (i : Z) :
  - len self ≤ i < len self →
  Deck.remove self [VInt i]
    = Ok (delete (Z.to_nat (resolve (len self) i)) self).
Proof.
  intros H. pose proof (resolve_range _ _ H) as Hk.
  destruct (getitem_in_range self _ Hk) as [c Hc].
  unfold Deck.remove.
  cbn [_flatten_nested_collections flat_map app Deck.remove_partition
       Deck.remove_classify existsb negb].
  fold (resolve (len self) i).
  destruct (Z.leb_spec 0 (resolve (len self) i)); [|lia].
  destruct (Z.ltb_spec (resolve (len self) i) (len self)); [|lia].
  cbn [andb app mbind result_bind sort_reverse sorted foldr insert_sorted
       fold_left].
  by rewrite remove_index_in_range.
Qed.

(** C3 (as amended): for every deck and every index [i] that [draw]
    accepts, negative or not, drawing the card at [i] and adding what [draw]
    returned back at the position [i] stood for ([i] itself when it is not
    negative, [len + i] otherwise, [len] being the size before the draw)
    gives the deck its original sequence back. *)
Theorem draw_then_add_at_resolved_index (self : list card) (i : Z) :
  - len self ≤ i < len self →
  ∃ v self',
    Deck.draw set_iter self [VInt i] = Ok (v, self') ∧
    Deck.add self' [v] (VInt (resolve (len self) i)) = Ok self.
Proof.
  intros H. pose proof (resolve_range _ _ H) as Hk.
  destruct (get_one_index self i H) as (c & Hc & Hget).
  set (k := resolve (len self) i) in *.
  assert (Hflat : ∃ v, Deck.draw set_iter self [VInt i]
                         = Ok (v, delete (Z.to_nat k) self) ∧
                       only_cards (_flatten_nested_collections [v]) = Ok [c]).
  { unfold Deck.draw. rewrite Hget, remove_one_index by done.
    cbn [mbind result_bind]. destruct c as [[] r s co f].
    - eexists. split; reflexivity.
    - eexists. split; reflexivity. }
  destruct Hflat as (v & Hdraw & Hv).
  exists v, (delete (Z.to_nat k) self). split; [done|].
  unfold Deck.add.
  assert (Hlen : len (delete (Z.to_nat k) self) = len self - 1).
  { unfold len in *. rewrite length_delete by (apply lookup_lt_is_Some; lia).
    lia. }
  rewrite Hlen.
  destruct (Z.ltb_spec k (- (len self - 1))); [lia|].
  destruct (Z.ltb_spec (len self - 1) k); [lia|].
  cbn [orb mbind result_bind]. rewrite Hv. cbn [mbind result_bind].
  f_equal. unfold insert_slice, slice_bound. rewrite Hlen.
  destruct (Z.ltb_spec k 0); [lia|].
  rewrite Z.min_l by lia.
  rewrite delete_take_drop.
  rewrite take_app_length' by (rewrite length_take; unfold len in *; lia).
  rewrite drop_app_length' by (rewrite length_take; unfold len in *; lia).
  apply take_drop_middle. exact Hc.
Qed.

(** *** [Deck.remove] with indexes *)

Lemma existsb_Zeqb (a : Z) (l : list Z) :
  existsb (Z.eqb a) l = true ↔ a ∈ l.
Proof.
  rewrite existsb_exists, list_elem_of_In. split.
  - intros (x & Hx & ->%Z.eqb_eq). done.
  - intros Ha. exists a. split; [done | apply Z.eqb_refl].
Qed.

Lemma omit_from_app {A} (n : nat) (S : list Z) (l1 l2 : list A) :
  omit_from n S (l1 ++ l2)
    = omit_from n S l1 ++ omit_from (n + length l1) S l2.
Proof.
  revert n. induction l1 as [|x l1 IH]; intros n; cbn [omit_from app length].
  - by rewrite Nat.add_0_r.
  - rewrite IH, Nat.add_succ_r. by destruct (existsb _ S).
Qed.

Lemma omit_from_below {A} (n : nat) (S : list Z) (l : list A) :
  Forall (λ k, k < Z.of_nat n) S → omit_from n S l = l.
Proof.
  revert n. induction l as [|x l IH]; intros n HS; cbn [omit_from]; [done|].
  destruct (existsb (Z.eqb (Z.of_nat n)) S) eqn:E.
  - apply existsb_Zeqb in E. rewrite Forall_forall in HS.
    apply HS in E. lia.
  - f_equal. apply IH. eapply Forall_impl; [exact HS|]. cbn. lia.
Qed.

Lemma omit_from_ext {A} (n : nat) (S1 S2 : list Z) (l : list A) :
  (∀ j : nat, (n ≤ j < n + length l)%nat →
              Z.of_nat j ∈ S1 ↔ Z.of_nat j ∈ S2) →
  omit_from n S1 l = omit_from n S2 l.
Proof.
  revert n. induction l as [|x l IH]; intros n H; cbn [omit_from]; [done|].
  rewrite (IH (S n)) by (intros j Hj; apply H; cbn [length]; lia).
  assert (existsb (Z.eqb (Z.of_nat n)) S1 = existsb (Z.eqb (Z.of_nat n)) S2)
    as ->; [|done].
  apply eq_true_iff_eq. rewrite !existsb_Zeqb. apply H. cbn [length]. lia.
Qed.

(** The sort puts its input in descending order and keeps its elements. *)
Lemma insert_sorted_perm {A K} (key : A → K) (le : K → K → bool) x l :
  insert_sorted key le x l ≡ₚ x :: l.
Proof.
  induction l as [|y l IH]; cbn [insert_sorted]; [done|].
  destruct (le (key x) (key y)); [done|]. rewrite IH. apply perm_swap.
Qed.

Lemma sorted_perm {A K} (key : A → K) (le : K → K → bool) (l : list A) :
  sorted key le l ≡ₚ l.
Proof.
  induction l as [|x l IH]; [done|].
  unfold sorted in *. cbn [foldr]. by rewrite insert_sorted_perm, IH.
Qed.

Lemma insert_sorted_descending (x : Z) (l : list Z) :
  StronglySorted (λ a b, b ≤ a) l →
  StronglySorted (λ a b, b ≤ a) (insert_sorted id (λ a b, b <=? a) x l).
Proof.
  induction 1 as [|y l Hl IH Hy]; cbn [insert_sorted].
  - repeat constructor.
  - unfold id at 1 2. destruct (Z.leb_spec y x).
    + constructor; [by constructor|]. constructor; [done|].
      eapply Forall_impl; [exact Hy|]. cbn. lia.
    + constructor; [done|]. rewrite insert_sorted_perm.
      constructor; [lia | done].
Qed.

Lemma sort_reverse_descending (l : list Z) :
  StronglySorted (λ a b, b ≤ a) (sort_reverse l).
Proof.
  induction l as [|x l IH]; [constructor|].
  apply insert_sorted_descending, IH.
Qed.

Lemma descending_NoDup_strict (l : list Z) :
  StronglySorted (λ a b, b ≤ a) l → NoDup l → StronglySorted (λ a b, b < a) l.
Proof.
  induction 1 as [|x l Hl IH Hx]; intros Hnd; [constructor|].
  apply NoDup_cons in Hnd as [Hnotin Hnd].
  constructor; [by apply IH|].
  rewrite Forall_forall in *. intros y Hy.
  assert (y ≠ x) by (intros ->; done). specialize (Hx y Hy). lia.
Qed.

(** Popping positions in strictly descending order removes exactly the
    elements that stood at these positions: each [pop] leaves the elements
    before its position where they were, and the positions still to come
    are all before it; the guard of the loop holds every time. *)
Lemma pop_descending (positions : list Z) (self : list card) :
  StronglySorted (λ a b, b < a) positions →
  Forall (λ k, 0 ≤ k < len self) positions →
  fold_left Deck.remove_index positions self = omit_from 0 positions self.
Proof.
  intros Hs. revert self.
  induction Hs as [|i L HL IH Hi]; intros self Hr; cbn [fold_left].
  - symmetry. apply omit_from_below. constructor.
  - apply Forall_cons in Hr as [Hir HLr].
    rewrite remove_index_in_range by done.
    destruct (getitem_in_range self i Hir) as [x Hx]. unfold getitem in Hx.
    assert (Hlt : (Z.to_nat i < length self)%nat) by (unfold len in Hir; lia).
    assert (HLi : Forall (λ k, k < Z.of_nat (Z.to_nat i)) L).
    { eapply Forall_impl; [exact Hi|]. cbn. lia. }
    rewrite IH.
    2:{ rewrite Forall_forall in *. intros k Hk.
        specialize (Hi k Hk). specialize (HLr k Hk).
        unfold len in *. rewrite length_delete by eauto. lia. }
    rewrite delete_take_drop.
    replace (omit_from 0 (i :: L) self)
      with (omit_from 0 (i :: L)
              (take (Z.to_nat i) self ++ x :: drop (S (Z.to_nat i)) self))
      by (by rewrite take_drop_middle).
    rewrite !omit_from_app. cbn [omit_from plus].
    rewrite length_take, Nat.min_l by lia.
    assert (existsb (Z.eqb (Z.of_nat (Z.to_nat i))) (i :: L) = true) as ->.
    { apply existsb_Zeqb. rewrite Z2Nat.id by lia. left. }
    rewrite (omit_from_below (Z.to_nat i) L) by done.
    rewrite (omit_from_below (S (Z.to_nat i)) (i :: L)).
    2:{ constructor; [lia|]. eapply Forall_impl; [exact HLi|]. cbn. lia. }
    f_equal. apply omit_from_ext. intros j Hj.
    rewrite length_take in Hj. rewrite elem_of_cons. split; [tauto|].
    intros [Hji|]; [lia | done].
Qed.

Lemma pop_descending_length (positions : list Z) (self : list card) :
  StronglySorted (λ a b, b < a) positions →
  Forall (λ k, 0 ≤ k < len self) positions →
  (length (fold_left Deck.remove_index positions self) + length positions
   = length self)%nat.
Proof.
  intros Hs. revert self.
  induction Hs as [|i L HL IH Hi]; intros self Hr; cbn [fold_left length].
  - lia.
  - apply Forall_cons in Hr as [Hir HLr].
    rewrite remove_index_in_range by done.
    assert (Hlt : (Z.to_nat i < length self)%nat) by (unfold len in Hir; lia).
    assert (Hdel : length (delete (Z.to_nat i) self) = (length self - 1)%nat)
      by (apply length_delete, lookup_lt_is_Some; done).
    rewrite Nat.add_succ_r, IH; [lia|].
    rewrite Forall_forall in *. intros k Hk.
    specialize (Hi k Hk). specialize (HLr k Hk). unfold len in *. lia.
Qed.

(** The first loop on integer arguments in range: the indexes are
    collected in resolved form, each once. *)
Lemma remove_partition_indexes (self cs : list card) (indexes acc : list Z) :
  Forall (λ i, - len self ≤ i < len self) indexes →
  NoDup acc →
  ∃ acc',
    Deck.remove_partition self (acc, cs) (VInt <$> indexes) = Ok (acc', cs) ∧
    NoDup acc' ∧
    ∀ k, k ∈ acc' ↔ k ∈ acc ∨ k ∈ resolve (len self) <$> indexes.
Proof.
  intros Hr. revert acc.
  induction Hr as [|i indexes Hi Hr IH]; intros acc Hnd.
  - exists acc. cbn. split_and!; [done..|]. intros k. rewrite elem_of_nil. tauto.
  - cbn [fmap list_fmap Deck.remove_partition Deck.remove_classify].
    fold (resolve (len self) i).
    pose proof (resolve_range _ _ Hi) as Hk.
    destruct (Z.leb_spec 0 (resolve (len self) i)); [|lia].
    destruct (Z.ltb_spec (resolve (len self) i) (len self)); [|lia].
    cbn [andb mbind result_bind].
    destruct (existsb (Z.eqb (resolve (len self) i)) acc) eqn:E; cbn [negb].
    + apply existsb_Zeqb in E.
      destruct (IH acc Hnd) as (acc' & -> & Hnd' & Hin).
      exists acc'. split_and!; [done..|]. intros k.
      rewrite Hin, elem_of_cons. split; [tauto|].
      intros [?|[->|?]]; tauto.
    + assert (resolve (len self) i ∉ acc).
      { intros Hin%existsb_Zeqb. congruence. }
      destruct (IH (acc ++ [resolve (len self) i])) as (acc' & -> & Hnd' & Hin).
      { apply NoDup_app. split_and!; [done| |apply NoDup_singleton].
        intros x Hx ->%list_elem_of_singleton. done. }
      exists acc'. split_and!; [done..|]. intros k.
      rewrite Hin, elem_of_app, list_elem_of_singleton, elem_of_cons. tauto.
Qed.

(** C5: when the arguments of [remove] flatten to integers that are valid
    indexes, in any order, negative or not, repeated or not, the first loop
    collects their resolved forms, each once; the call then removes exactly
    the cards that stood at these positions and leaves the others in their
    order; as many cards go as there are distinct positions. *)
Theorem remove_by_indexes (self : list card) (cards_or_indexes : list pyval)
    (indexes : list Z) :
  _flatten_nested_collections cards_or_indexes = VInt <$> indexes →
  Forall (λ i, - len self ≤ i < len self) indexes →
  ∃ indexes_to_remove,
    Deck.remove_partition self ([], []) (VInt <$> indexes)
      = Ok (indexes_to_remove, []) ∧
    NoDup indexes_to_remove ∧
    (∀ k, k ∈ indexes_to_remove ↔ k ∈ resolve (len self) <$> indexes) ∧
    Deck.remove self cards_or_indexes = Ok (without_positions self indexes) ∧
    fold_left Deck.remove_index (sort_reverse indexes_to_remove) self
      = without_positions self indexes ∧
    (length (without_positions self indexes) + length indexes_to_remove
     = length self)%nat.
Proof.
  intros Hflat Hr.
  destruct (remove_partition_indexes self [] indexes [] Hr (NoDup_nil_2))
    as (idx & Hpart & Hnd & Hin).
  assert (Hin' : ∀ k, k ∈ idx ↔ k ∈ resolve (len self) <$> indexes).
  { intros k. rewrite Hin, elem_of_nil. tauto. }
  assert (Hrange : Forall (λ k, 0 ≤ k < len self) (sort_reverse idx)).
  { rewrite Forall_forall. intros k Hk.
    unfold sort_reverse in Hk. rewrite sorted_perm in Hk.
    apply Hin', list_elem_of_fmap in Hk as (i & -> & Hi).
    rewrite Forall_forall in Hr. by apply resolve_range, Hr. }
  assert (Hpop : fold_left Deck.remove_index (sort_reverse idx) self
                 = without_positions self indexes).
  { rewrite pop_descending; [|apply descending_NoDup_strict|done].
    - apply omit_from_ext. intros j _.
      unfold sort_reverse. rewrite sorted_perm. apply Hin'.
    - apply sort_reverse_descending.
    - unfold sort_reverse. by rewrite sorted_perm. }
  exists idx. split_and!; [done..| | done |].
  - unfold Deck.remove. destruct cards_or_indexes as [|arg args].
    + destruct indexes; [|discriminate Hflat]. f_equal. symmetry.
      apply omit_from_below. constructor.
    + rewrite Hflat, Hpart. cbn [mbind result_bind fold_left]. by rewrite Hpop.
  - assert (Hlen : length (sort_reverse idx) = length idx)
      by apply Permutation_length, sorted_perm.
    rewrite <- Hpop, <- Hlen. apply pop_descending_length; [|done].
    apply descending_NoDup_strict; [apply sort_reverse_descending|].
    unfold sort_reverse. by rewrite sorted_perm.
Qed.

(** *** [Deck.select] with an exclusion alone *)

Lemma filterM_total {A} (f : A → result bool) (l : list A) :
  (∀ x, ∃ b, f x = Ok b) → ∃ l', filterM f l = Ok l'.
Proof.
  intros Hf. induction l as [|x l [l' IH]]; [by eexists|].
  cbn. destruct (Hf x) as [b ->]. rewrite IH. by eexists.
Qed.

Lemma select_stage_exclusion_alone (self : list card) (crit r : pyval)
    (t : card) :
  Deck.criteria_list crit = Ok [crit] →
  Deck.separate_exclusions [crit] = ([r], []) →
  Deck.get_test_card_rank r = Ok t →
  crit ≠ VNone →
  Deck.select_stage Deck.get_test_card_rank Card.same_rank self crit = Ok [].
Proof.
  intros Hl Hs Ht Hn. unfold Deck.select_stage.
  destruct crit; try done; rewrite Hl; cbn [mbind result_bind]; rewrite Hs;
    cbn [foldM mbind result_bind];
    (destruct (filterM_total
                 (λ card, t ← Deck.get_test_card_rank r;
                          b ← Card.same_rank card (VCard t);
                          Ok (negb b)) self) as [l' ->];
     [intros x; rewrite Ht; by eexists | reflexivity]).
Qed.

(** C1 (what the code does): whatever the deck, [select(rank=-3)] and
    [select(rank="!3")] return an empty deck.  The exclusion loop drops the
    cards of rank 3, then the inclusion loop, which has no value to run on,
    leaves its empty list as the selection. *)
Theorem select_exclusion_alone_is_empty (self : list card) :
  Deck.select set_iter self (VInt (-3)) VNone VNone VNone = Ok [] ∧
  Deck.select set_iter self (VStr "!3") VNone VNone VNone = Ok [].
Proof.
  split; unfold Deck.select.
  - rewrite (select_stage_exclusion_alone self (VInt (-3)) (VInt 3)
               three_of_clubs); try done.
  - rewrite (select_stage_exclusion_alone self (VStr "!3") (VStr "3")
               three_of_clubs); try done.
Qed.

(** *** [Deck.get_random] *)

Lemma card_eqb_true (a b : card) :
  card_eqb a b = true ↔
  rank a = rank b ∧ suit a = suit b ∧ color a = color b
  ∧ face_card a = face_card b.
Proof.
  unfold card_eqb, Card.__eq__, Card.same_rank, Card.same_suit,
    Card.same_color.
  cbn [mbind result_bind].
  repeat (case_bool_decide; cbn [negb mbind result_bind]);
    intuition congruence.
Qed.

(** On cards with correct attributes the rank tells the class, and
    [Card.__eq__] holds of equal objects only. *)
Lemma card_eqb_eq (a b : card) :
  Card._check_correct_attributes a = Ok () →
  Card._check_correct_attributes b = Ok () →
  card_eqb a b = true → a = b.
Proof.
  intros Ha Hb (Hr & Hs & Hc & Hf)%card_eqb_true.
  destruct a as [ca ra sa coa fa], b as [cb rb sb cob fb]. cbn in *. subst.
  f_equal. unfold Card._check_correct_attributes in *. cbn in *.
  destruct ca, cb; try done; revert Ha Hb; ztests; try done.
Qed.

Lemma card_eqb_refl (a : card) : card_eqb a a = true.
Proof. by apply card_eqb_true. Qed.

Lemma card_eqb_sym (a b : card) : card_eqb a b = true → card_eqb b a = true.
Proof. rewrite !card_eqb_true. intuition congruence. Qed.

Lemma card_eqb_trans (a b c : card) :
  card_eqb a b = true → card_eqb b c = true → card_eqb a c = true.
Proof. rewrite !card_eqb_true. intuition congruence. Qed.

Lemma same_cards_refl (l : list card) : same_cards l l.
Proof.
  exists l. split; [done|]. apply Forall_Forall2_diag, Forall_forall.
  intros x _. apply card_eqb_refl.
Qed.

Lemma Forall2_card_eqb_trans (l1 l2 l3 : list card) :
  Forall2 (λ x y, card_eqb x y = true) l1 l2 →
  Forall2 (λ x y, card_eqb x y = true) l2 l3 →
  Forall2 (λ x y, card_eqb x y = true) l1 l3.
Proof.
  intros H. revert l3. induction H as [|x y l1 l2 Hxy H IH]; intros l3 H3.
  - by inversion H3.
  - inversion H3 as [|? z ? l3' Hyz H3']; subst. constructor; [|by apply IH].
    by eapply card_eqb_trans.
Qed.

Lemma same_cards_trans (l1 l2 l3 : list card) :
  same_cards l1 l2 → same_cards l2 l3 → same_cards l1 l3.
Proof.
  intros (k1 & Hp1 & Hf1) (k2 & Hp2 & Hf2).
  destruct (Permutation_Forall2 (Permutation_sym Hp1) Hf2) as (k2' & Hp & Hf).
  exists k2'. split; [by rewrite <- Hp|].
  by eapply Forall2_card_eqb_trans.
Qed.

(** With correct attributes, the same cards up to [Card.__eq__] are the
    same cards. *)
Lemma same_cards_perm (l1 l2 : list card) :
  correct_attributes l1 → correct_attributes l2 →
  same_cards l1 l2 → l1 ≡ₚ l2.
Proof.
  intros H1 H2 (k & Hp & Hf).
  assert (Hk : correct_attributes k) by (unfold correct_attributes; by rewrite Hp).
  assert (l1 = k) as ->; [|done].
  clear Hp H2. induction Hf as [|x y l1 k Hxy Hf IH]; [done|].
  apply Forall_cons in H1 as [Hx H1]. apply Forall_cons in Hk as [Hy Hk].
  f_equal; [by apply card_eqb_eq | by apply IH].
Qed.

(** [l.remove(x)] for an [x] in [l]: some element equal to [x] goes. *)
Lemma remove_first_elem (x : card) (l : list card) :
  x ∈ l →
  ∃ y rest, remove_first card_eqb x l = Ok rest ∧ card_eqb y x = true
            ∧ l ≡ₚ y :: rest.
Proof.
  induction l as [|z l IH]; intros Hx; [by apply elem_of_nil in Hx|].
  cbn [remove_first]. destruct (card_eqb z x) eqn:E.
  - by exists z, l.
  - apply elem_of_cons in Hx as [->|Hx].
    + rewrite card_eqb_refl in E. discriminate.
    + destruct (IH Hx) as (y & rest & -> & Hy & Hp). exists y, (z :: rest).
      split_and!; [done..|]. rewrite Hp. apply perm_swap.
Qed.

Lemma read_write (p : positive) (l : list card) (h : gmap positive (list card)) :
  Heap.read p (Heap.write p l h) = l.
Proof. unfold Heap.read, Heap.write. by rewrite lookup_insert_eq. Qed.

Lemma read_write_ne (p q : positive) (l : list card)
    (h : gmap positive (list card)) :
  p ≠ q → Heap.read q (Heap.write p l h) = Heap.read q h.
Proof. intros. unfold Heap.read, Heap.write. by rewrite lookup_insert_ne. Qed.

(** The loop of [get_random]: it ends without an exception, touches no
    list but [possible_cards] and [cards], moves
    [min(amount, len(possible_cards))] cards from the first to the end of
    the second; the cards of the two lists together stay the same up to
    [Card.__eq__], and each of them is a card that was there. *)
Lemma get_random_loop_spec (amount : nat) (draws : nat → nat)
    (possible_cards cards : positive) (h : gmap positive (list card)) :
  possible_cards ≠ cards →
  ∃ h',
    Deck.get_random_loop amount draws possible_cards cards h = Ok h' ∧
    (∀ q, q ≠ possible_cards → q ≠ cards → h' !! q = h !! q) ∧
    same_cards (Heap.read cards h' ++ Heap.read possible_cards h')
               (Heap.read cards h ++ Heap.read possible_cards h) ∧
    Heap.read cards h' ++ Heap.read possible_cards h'
      ⊆ Heap.read cards h ++ Heap.read possible_cards h ∧
    length (Heap.read cards h')
      = (length (Heap.read cards h)
         + amount `min` length (Heap.read possible_cards h))%nat ∧
    length (Heap.read cards h' ++ Heap.read possible_cards h')
      = length (Heap.read cards h ++ Heap.read possible_cards h).
Proof.
  intros Hne. revert draws h.
  induction amount as [|amount IH]; intros draws h;
    cbn [Deck.get_random_loop].
  { exists h. split_and!; [done|done|apply same_cards_refl|done| |done].
    cbn. lia. }
  set (P := Heap.read possible_cards h) in *.
  case_bool_decide as Hlen.
  2:{ exists h. split_and!; [done|done|apply same_cards_refl|done| |done].
      assert (length P = 0%nat) as -> by (unfold len in Hlen; lia). lia. }
  assert (HP : (0 < length P)%nat) by (unfold len in Hlen; lia).
  destruct (lookup_lt_is_Some_2 P (draws 0%nat mod length P)%nat)
    as [card Hcard].
  { apply Nat.mod_upper_bound. lia. }
  unfold choice. rewrite Hcard.
  assert (Hin : card ∈ P) by (eapply list_elem_of_lookup_2, Hcard).
  destruct (remove_first_elem card P Hin) as (y & rest & -> & Hy & Hperm).
  cbn [mbind result_bind].
  set (h1 := Heap.write possible_cards rest h).
  set (h2 := Heap.write cards (Heap.read cards h1 ++ [card]) h1).
  assert (Hrp : Heap.read possible_cards h2 = rest).
  { unfold h2. rewrite read_write_ne by done. apply read_write. }
  assert (Hrc : Heap.read cards h2 = Heap.read cards h ++ [card]).
  { unfold h2. rewrite read_write. unfold h1. by rewrite read_write_ne. }
  destruct (IH (λ n, draws (S n)) h2)
    as (h' & -> & Hframe & Hsame & Hsub & Hl' & Hall).
  rewrite Hrp, Hrc in *.
  exists h'. split_and!; [done|..].
  - intros q Hq1 Hq2. rewrite Hframe by done. unfold h2, h1, Heap.write.
    by rewrite !lookup_insert_ne.
  - eapply same_cards_trans; [exact Hsame|].
    exists ((Heap.read cards h ++ [y]) ++ rest). split.
    + rewrite Hperm, <- app_assoc. done.
    + repeat apply Forall2_app; try (apply Forall_Forall2_diag, Forall_forall;
        intros; apply card_eqb_refl).
      constructor; [by apply card_eqb_sym | constructor].
  - etrans; [exact Hsub|]. intros x.
    rewrite !elem_of_app, list_elem_of_singleton, Hperm, elem_of_cons.
    intros [[? | ->] | ?]; [tauto | | tauto].
    right. rewrite Hperm in Hin. by apply elem_of_cons in Hin.
  - rewrite Hl', length_app. apply Permutation_length in Hperm.
    cbn [length] in *. lia.
  - rewrite Hall, !length_app. apply Permutation_length in Hperm.
    cbn [length] in *. lia.
Qed.

Lemma only_cards_VCard (cs : list card) : only_cards (VCard <$> cs) = Ok cs.
Proof.
  unfold only_cards. induction cs as [|c cs IH]; [done|].
  cbn [fmap list_fmap mapM mbind result_bind] in *. by rewrite IH.
Qed.

Lemma Deck_of_list (cs : list card) :
  Deck.__init__ set_iter [VList (VCard <$> cs)] = Ok cs.
Proof.
  unfold Deck.__init__. cbn [_flatten_nested_collections flat_map].
  rewrite app_nil_r. apply only_cards_VCard.
Qed.

(** C9: for every deck and every [amount] not below its size,
    [get_random(amount)] raises nothing and returns all the cards of the
    deck: [min(amount, len(deck))] cards, each of them a card of the deck,
    that are the cards of the deck in some order, as [Card.__eq__] sees them
    and, when the cards have correct attributes, as objects too;
    [self.cards], like every list that existed before the call, is as it
    was. *)
Theorem get_random_returns_all (h : gmap positive (list card))
    (self : positive) (cards : list card) (amount : Z) (draws : nat → nat) :
  h !! self = Some cards →
  len cards ≤ amount →
  ∃ v h',
    Deck.get_random set_iter self amount draws h = Ok (v, h') ∧
    len (cards_of v) = Z.min amount (len cards) ∧
    same_cards (cards_of v) cards ∧
    cards_of v ⊆ cards ∧
    (correct_attributes cards → cards_of v ≡ₚ cards) ∧
    h' !! self = Some cards ∧
    ∀ q, q ∈ dom h → h' !! q = h !! q.
Proof.
  intros Hself Hamount. unfold Deck.get_random, Heap.alloc.
  assert (Hread : Heap.read self h = cards) by (unfold Heap.read; by rewrite Hself).
  rewrite Hread.
  set (p := fresh (dom h)).
  set (h1 := <[p := cards]> h).
  set (c := fresh (dom h1)).
  set (h2 := <[c := []]> h1).
  assert (Hp : p ∉ dom h) by apply is_fresh.
  assert (Hc : c ∉ dom h1) by apply is_fresh.
  assert (Hpc : p ≠ c).
  { intros <-. apply Hc. unfold h1. rewrite dom_insert_L. set_solver. }
  assert (Hrp : Heap.read p h2 = cards).
  { unfold h2. rewrite (read_write_ne c p) by done. apply read_write. }
  assert (Hrc : Heap.read c h2 = []) by apply read_write.
  destruct (get_random_loop_spec (Z.to_nat amount) draws p c h2 Hpc)
    as (h' & -> & Hframe & Hsame & Hsub & Hlen & Hall).
  cbn [mbind result_bind]. rewrite Hrp, Hrc in *. cbn [app length] in *.
  assert (Hmin : (Z.to_nat amount `min` length cards = length cards)%nat)
    by (unfold len in Hamount; lia).
  rewrite Hmin in Hlen.
  assert (Hempty : Heap.read p h' = []).
  { rewrite length_app in Hall. apply length_zero_iff_nil. lia. }
  rewrite Hempty, app_nil_r in *.
  assert (Hold : ∀ q, q ∈ dom h → h' !! q = h !! q).
  { intros q Hq. rewrite Hframe.
    - unfold h2, h1. rewrite !lookup_insert_ne; [done|..]; intros <-; try done.
      apply Hc. unfold h1. rewrite dom_insert_L. set_solver.
    - intros ->. done.
    - intros ->. apply Hc. unfold h1. rewrite dom_insert_L. set_solver. }
  assert (Hres : ∃ v, (match Heap.read c h' with
                       | [c0] => Ok (VCard c0, h')
                       | cs => d ← Deck.__init__ set_iter [VList (VCard <$> cs)];
                               Ok (VDeck d, h')
                       end) = Ok (v, h') ∧ cards_of v = Heap.read c h').
  { destruct (Heap.read c h') as [|c0 [|c1 cs]] eqn:E.
    - exists (VDeck []). by rewrite Deck_of_list.
    - by exists (VCard c0).
    - exists (VDeck (c0 :: c1 :: cs)). by rewrite Deck_of_list. }
  destruct Hres as (v & Hv & Hcards).
  exists v, h'. rewrite Hcards. split_and!; [| |done|done| | |done].
  - exact Hv.
  - unfold len in *. lia.
  - intros Hok. apply same_cards_perm; [|done..].
    unfold correct_attributes in *. rewrite Forall_forall in *.
    intros x Hx. apply Hok, Hsub, Hx.
  - rewrite Hold; [done|]. apply elem_of_dom. by eexists.
Qed.

(** *** The standard deck *)

Lemma elements_keys (m : list (string * Z)) :
  NoDup m.*1 →
  elements (dom (list_to_map m : gmap string Z)) ≡ₚ m.*1.
Proof.
  intros Hnd. apply NoDup_Permutation; [apply NoDup_elements | done |].
  intros x. rewrite elem_of_elements, dom_list_to_map_L.
  apply elem_of_list_to_set.
Qed.

Lemma elements_get_ranks : elements Card.get_ranks ≡ₚ rank_names.
Proof.
  unfold Card.get_ranks, Card.__ranks. rewrite elements_keys; [done|].
  refine (bool_decide_unpack _ _). vm_compute. exact I.
Qed.

Lemma elements_get_suits : elements Card.get_suits ≡ₚ suit_names.
Proof.
  unfold Card.get_suits, Card.__suits. rewrite elements_keys; [done|].
  refine (bool_decide_unpack _ _). vm_compute. exact I.
Qed.

Lemma Card_new_named (r s : string) :
  r ∈ rank_names → s ∈ suit_names →
  Card.new [VStr r; VStr s] = Ok (card_named r s).
Proof.
  unfold rank_names, suit_names. intros Hr Hs.
  repeat (apply elem_of_cons in Hr as [->|Hr]);
    try (by apply elem_of_nil in Hr);
    repeat (apply elem_of_cons in Hs as [->|Hs]);
    try (by apply elem_of_nil in Hs);
    vm_compute; reflexivity.
Qed.

Lemma mapM_map {A B} (f : A → result B) (g : A → B) (l : list A) :
  (∀ x, x ∈ l → f x = Ok (g x)) → mapM f l = Ok (g <$> l).
Proof.
  induction l as [|x l IH]; intros H; [done|].
  cbn [mapM fmap list_fmap]. rewrite H by left.
  cbn [mbind result_bind]. rewrite IH; [done|].
  intros y Hy. apply H. by right.
Qed.

Lemma bind_Permutation_pointwise {A B} (f g : A → list B) (l : list A) :
  (∀ x, f x ≡ₚ g x) → l ≫= f ≡ₚ l ≫= g.
Proof.
  intros H. induction l as [|x l IH]; [done|].
  cbn. by rewrite H, IH.
Qed.

Lemma concat_fmap_bind {A B} (f : A → list B) (l : list A) :
  concat (f <$> l) = l ≫= f.
Proof. induction l as [|x l IH]; [done|]. cbn. by rewrite IH. Qed.

(** The cards [generate_standard_deck] enumerates before the Jokers. *)
Lemma generate_standard_deck_eq :
  set_iteration set_iter →
  Deck.generate_standard_deck set_iter
    = Ok ((s ← set_iter Card.get_suits;
           (λ r, card_named r s) <$> set_iter Card.get_ranks)
          ++ [black_joker; red_joker]).
Proof.
  intros Hiter. unfold set_iteration in Hiter.
  unfold Deck.generate_standard_deck.
  rewrite (mapM_map _ (λ s, (λ r, card_named r s) <$> set_iter Card.get_ranks)).
  - assert (Joker.__init__ (VStr "Black") = Ok black_joker) as ->
      by (vm_compute; reflexivity).
    assert (Joker.__init__ (VStr "Red") = Ok red_joker) as ->
      by (vm_compute; reflexivity).
    cbn [mbind result_bind]. by rewrite concat_fmap_bind.
  - intros s Hs. apply mapM_map. intros r Hr. apply Card_new_named.
    + by rewrite Hiter, elements_get_ranks in Hr.
    + by rewrite Hiter, elements_get_suits in Hs.
Qed.

Lemma enumeration_is_french_52 :
  set_iteration set_iter →
  (s ← set_iter Card.get_suits;
   (λ r, card_named r s) <$> set_iter Card.get_ranks) ≡ₚ french_52.
Proof.
  intros Hiter. unfold set_iteration in Hiter.
  rewrite (bind_Permutation_pointwise _ (λ s, (λ r, card_named r s) <$> rank_names)).
  2:{ intros s. by rewrite Hiter, elements_get_ranks. }
  rewrite Hiter, elements_get_suits.
  vm_compute. reflexivity.
Qed.

Lemma count_in_french_52 (r s : Z) :
  1 ≤ r ≤ 13 → 1 ≤ s ≤ 4 →
  count_occ card_eq_dec (french_52 ++ [black_joker; red_joker]) (card_of r s)
    = 1%nat.
Proof.
  intros Hr Hs.
  assert (r = 1 ∨ r = 2 ∨ r = 3 ∨ r = 4 ∨ r = 5 ∨ r = 6 ∨ r = 7 ∨ r = 8
          ∨ r = 9 ∨ r = 10 ∨ r = 11 ∨ r = 12 ∨ r = 13) as Hr' by lia.
  assert (s = 1 ∨ s = 2 ∨ s = 3 ∨ s = 4) as Hs' by lia.
  clear Hr Hs.
  repeat (destruct Hr' as [->|Hr']); try subst r;
    repeat (destruct Hs' as [->|Hs']); try subst s;
    vm_compute; reflexivity.
Qed.

(** C10: under any iteration order of the two sets of names, [Deck()] is
    the list [generate_standard_deck] returns: 54 cards, each of the 13
    ranks in each of the 4 suits exactly once, then the black Joker and the
    red Joker; the order of the 52 is the order in which the sets of suit
    names and of rank names are iterated, and every construction with no
    argument yields the same list. *)
Theorem standard_deck :
  set_iteration set_iter →
  ∃ deck cards,
    Deck.__init__ set_iter [] = Ok deck ∧
    (∀ deck', Deck.__init__ set_iter [] = Ok deck' → deck' = deck) ∧
    deck = cards ++ [black_joker; red_joker] ∧
    cards = (s ← set_iter Card.get_suits;
             (λ r, card_named r s) <$> set_iter Card.get_ranks) ∧
    cards ≡ₚ french_52 ∧
    length deck = 54%nat ∧
    (∀ r s, 1 ≤ r ≤ 13 → 1 ≤ s ≤ 4 →
            Card.new [VInt r; VInt s] = Ok (card_of r s) ∧
            count_occ card_eq_dec deck (card_of r s) = 1%nat) ∧
    Joker.__init__ (VStr "Black") = Ok black_joker ∧
    Joker.__init__ (VStr "Red") = Ok red_joker ∧
    count_occ card_eq_dec deck black_joker = 1%nat ∧
    count_occ card_eq_dec deck red_joker = 1%nat.
Proof.
  intros Hiter.
  pose proof (generate_standard_deck_eq Hiter) as Hgen.
  pose proof (enumeration_is_french_52 Hiter) as Hperm.
  set (cards := s ← set_iter Card.get_suits;
                (λ r, card_named r s) <$> set_iter Card.get_ranks) in *.
  assert (Hdeck : cards ++ [black_joker; red_joker]
                  ≡ₚ french_52 ++ [black_joker; red_joker])
    by (by rewrite Hperm).
  exists (cards ++ [black_joker; red_joker]), cards.
  cbn [Deck.__init__]. split_and!; try done.
  - intros deck'. rewrite Hgen. congruence.
  - by rewrite Hdeck.
  - intros r s Hr Hs. split.
    + unfold Card.new, Card.__init__, card_of. cbn [is_int_or_str andb negb
        mbind result_bind].
      destruct (Z.leb_spec 1 r), (Z.leb_spec r 13), (Z.leb_spec 1 s),
        (Z.leb_spec s 4); try lia. reflexivity.
    + rewrite (proj1 (Permutation_count_occ card_eq_dec _ _) Hdeck).
      by apply count_in_french_52.
  - by rewrite (proj1 (Permutation_count_occ card_eq_dec _ _) Hdeck).
  - by rewrite (proj1 (Permutation_count_occ card_eq_dec _ _) Hdeck).
Qed.

End Properties.

(** * Closed instances *)

(** C2, as the claim has it: comparing the Ace of Clubs with [5] raises
    [ValueError], which is no [TypeError]. *)
Lemma compare_with_int_not_TypeError :
  compare Card.default_config Lt ace_of_clubs (VInt 5) = Raise ValueError ∧
  ¬ raises (compare Card.default_config Lt ace_of_clubs (VInt 5)) TypeError.
Proof. split; [reflexivity | discriminate]. Qed.

Lemma compare_non_card_raises_ValueError_witness :
  is_card (VInt 5) = false ∧
  raises (compare Card.default_config Lt ace_of_clubs (VInt 5)) ValueError.
Proof.
  split; [reflexivity|].
  apply (compare_non_card_raises_ValueError
           Card.default_config Lt ace_of_clubs (VInt 5)).
  reflexivity.
Defined.

(** C3, as the claim has it: on a deck of three cards, the card drawn at
    [-1] and added back at [-1] lands before the last card, and the card
    drawn at [-3] cannot be added back at [-3]. *)
Lemma draw_then_add_at_negative_index :
  (∃ v self',
     Deck.draw an_iteration_order three_clubs [VInt (-1)] = Ok (v, self') ∧
     Deck.add self' [v] (VInt (-1))
       = Ok [ace_of_clubs; three_of_clubs; two_of_clubs] ∧
     Deck.add self' [v] (VInt (-1)) ≠ Ok three_clubs) ∧
  (∃ v self',
     Deck.draw an_iteration_order three_clubs [VInt (-3)] = Ok (v, self') ∧
     Deck.add self' [v] (VInt (-3)) = Raise IndexError).
Proof.
  split.
  - exists (VCard three_of_clubs), [ace_of_clubs; two_of_clubs].
    split_and!; [vm_compute; reflexivity..|]. vm_compute. discriminate.
  - exists (VCard ace_of_clubs), [two_of_clubs; three_of_clubs].
    split; vm_compute; reflexivity.
Qed.

Lemma draw_then_add_at_resolved_index_witness :
  - len three_clubs ≤ -1 < len three_clubs ∧
  ∃ v self',
    Deck.draw an_iteration_order three_clubs [VInt (-1)] = Ok (v, self') ∧
    Deck.add self' [v] (VInt (resolve (len three_clubs) (-1))) = Ok three_clubs.
Proof.
  split; [cbv [len three_clubs length]; lia|].
  apply (draw_then_add_at_resolved_index an_iteration_order three_clubs (-1)).
  cbv [len three_clubs length]; lia.
Defined.

Lemma remove_by_indexes_witness :
  _flatten_nested_collections [VInt 2; VList [VInt (-1); VInt 0]]
    = VInt <$> [2; -1; 0] ∧
  Forall (λ i, - len three_clubs ≤ i < len three_clubs) [2; -1; 0] ∧
  Deck.remove three_clubs [VInt 2; VList [VInt (-1); VInt 0]]
    = Ok (without_positions three_clubs [2; -1; 0]).
Proof.
  assert (H1 : _flatten_nested_collections [VInt 2; VList [VInt (-1); VInt 0]]
               = VInt <$> [2; -1; 0]) by reflexivity.
  assert (H2 : Forall (λ i, - len three_clubs ≤ i < len three_clubs) [2; -1; 0])
    by (repeat constructor; cbv [len three_clubs length]; lia).
  split; [exact H1|]. split; [exact H2|].
  destruct (remove_by_indexes three_clubs
              [VInt 2; VList [VInt (-1); VInt 0]] [2; -1; 0] H1 H2)
    as (idx & _ & _ & _ & H & _).
  exact H.
Defined.

Lemma getitem_slice_raises_TypeError_witness :
  three_clubs ≠ [] ∧
  - len three_clubs ≤ 0 < len three_clubs ∧
  - len three_clubs ≤ 2 ≤ len three_clubs ∧
  raises (Deck.__getitem__ three_clubs (VSlice (Some 0) (Some 2) None)) TypeError.
Proof.
  assert (H1 : three_clubs ≠ []) by discriminate.
  assert (H2 : - len three_clubs ≤ 0 < len three_clubs)
    by (cbv [len three_clubs length]; lia).
  assert (H3 : - len three_clubs ≤ 2 ≤ len three_clubs)
    by (cbv [len three_clubs length]; lia).
  exact (conj H1 (conj H2 (conj H3
           (getitem_slice_raises_TypeError three_clubs 0 2 H1 H2 H3)))).
Defined.

Lemma add_index_minus_1_witness :
  three_clubs ≠ [] ∧
  only_cards (_flatten_nested_collections
                [VList [VCard black_joker; VCard red_joker]])
    = Ok [black_joker; red_joker] ∧
  ∃ prefix final,
    three_clubs = prefix ++ [final] ∧
    Deck.add three_clubs [VList [VCard black_joker; VCard red_joker]] (VInt (-1))
      = Ok (prefix ++ [black_joker; red_joker] ++ [final]).
Proof.
  assert (H1 : three_clubs ≠ []) by discriminate.
  assert (H2 : only_cards (_flatten_nested_collections
                             [VList [VCard black_joker; VCard red_joker]])
               = Ok [black_joker; red_joker]) by reflexivity.
  split; [exact H1|]. split; [exact H2|].
  exact (add_index_minus_1 three_clubs
           [VList [VCard black_joker; VCard red_joker]]
           [black_joker; red_joker] H1 H2).
Defined.

Lemma get_random_returns_all_witness :
  small_heap !! 1%positive = Some [ace_of_clubs; two_of_clubs] ∧
  len [ace_of_clubs; two_of_clubs] ≤ 5 ∧
  ∃ v h',
    Deck.get_random an_iteration_order 1%positive 5 (λ n, n) small_heap
      = Ok (v, h') ∧
    cards_of v ≡ₚ [ace_of_clubs; two_of_clubs] ∧
    h' !! 1%positive = Some [ace_of_clubs; two_of_clubs].
Proof.
  assert (H1 : small_heap !! 1%positive = Some [ace_of_clubs; two_of_clubs])
    by (vm_compute; reflexivity).
  assert (H2 : len [ace_of_clubs; two_of_clubs] ≤ 5)
    by (cbv [len length]; lia).
  split; [exact H1|]. split; [exact H2|].
  destruct (get_random_returns_all an_iteration_order small_heap 1%positive
              [ace_of_clubs; two_of_clubs] 5 (λ n, n) H1 H2)
    as (v & h' & Hrun & _ & _ & _ & Hperm & Hself & _).
  exists v, h'. split; [exact Hrun|]. split; [|exact Hself].
  apply Hperm. repeat constructor.
Defined.

Lemma standard_deck_witness :
  set_iteration an_iteration_order ∧
  ∃ deck, Deck.__init__ an_iteration_order [] = Ok deck ∧ length deck = 54%nat.
Proof.
  assert (H : set_iteration an_iteration_order) by (intros X; reflexivity).
  split; [exact H|].
  destruct (standard_deck an_iteration_order H)
    as (deck & cards & Hinit & _ & _ & _ & _ & Hlen & _).
  exists deck. split; [exact Hinit | exact Hlen].
Defined.

(** * Further properties of the card classes *)

Section CardProperties.

Lemma Card_eq_card_eqb (a b : card) :
  Card.__eq__ a (VCard b) = Ok (card_eqb a b).
Proof.
  unfold card_eqb, Card.__eq__, Card.same_rank, Card.same_suit,
    Card.same_color.
  cbn [mbind result_bind].
  repeat (case_bool_decide; cbn [negb mbind result_bind]); reflexivity.
Qed.


(** X2: the names a card gives are the names that build it.  For every rank
    from 1 to 13 and suit from 1 to 4, [get_rank()] and [get_suit()] of
    [Card(rank, suit)] return two strings, and [Card] called on these two
    strings returns the same card. *)
Theorem card_names_round_trip (r s : Z) :
  1 ≤ r ≤ 13 → 1 ≤ s ≤ 4 →
  ∃ c rank_name suit_name,
    Card.new [VInt r; VInt s] = Ok c ∧
    card_get_rank c = Ok (VStr rank_name) ∧
    card_get_suit c = Ok (VStr suit_name) ∧
    Card.new [VStr rank_name; VStr suit_name] = Ok c.
Proof.
  intros Hr Hs.
  assert (r = 1 ∨ r = 2 ∨ r = 3 ∨ r = 4 ∨ r = 5 ∨ r = 6 ∨ r = 7 ∨ r = 8
          ∨ r = 9 ∨ r = 10 ∨ r = 11 ∨ r = 12 ∨ r = 13) as Hr' by lia.
  assert (s = 1 ∨ s = 2 ∨ s = 3 ∨ s = 4) as Hs' by lia.
  clear Hr Hs.
  repeat (destruct Hr' as [->|Hr']); try subst r;
    repeat (destruct Hs' as [->|Hs']); try subst s;
    do 3 eexists; repeat split; vm_compute; reflexivity.
Qed.

(** X3: on two card objects [==] never raises and is true exactly when rank,
    suit, color and face-card flag agree (the class of the objects is not
    looked at); it gives the same answer both ways round, and [!=] gives the
    opposite answer. *)
Theorem card_eq_compares_four_attributes (a b : card) :
  ∃ r,
    Card.__eq__ a (VCard b) = Ok r ∧
    Card.__eq__ b (VCard a) = Ok r ∧
    Card.__ne__ a (VCard b) = Ok (negb r) ∧
    (r = true ↔ rank a = rank b ∧ suit a = suit b ∧ color a = color b
                ∧ face_card a = face_card b).
Proof.
  exists (card_eqb a b). rewrite !Card_eq_card_eqb.
  assert (card_eqb b a = card_eqb a b) as Hsym.
  { apply eq_true_iff_eq. rewrite !card_eqb_true. intuition congruence. }
  split_and!; [done | by rewrite Hsym | | apply card_eqb_true].
  unfold Card.__ne__. by rewrite Card_eq_card_eqb.
Qed.

(** X4: the four ordering methods agree with each other.  On two card
    objects, under any setting of the Ace, none raises, [a < b] and [b > a]
    give the same answer, and [a >= b] and [b <= a] give the opposite one. *)
Theorem ordering_methods_agree (cfg : Card.config) (a b : card) :
  ∃ lt,
    Card.__lt__ cfg a (VCard b) = Ok lt ∧
    Card.__gt__ cfg b (VCard a) = Ok lt ∧
    Card.__ge__ cfg a (VCard b) = Ok (negb lt) ∧
    Card.__le__ cfg b (VCard a) = Ok (negb lt).
Proof.
  exists (Card.effective_rank cfg a <? Card.effective_rank cfg b).
  unfold Card.__lt__, Card.__gt__, Card.__ge__, Card.__le__. cbv zeta.
  split_and!; [done..| |]; f_equal;
    destruct (Z.ltb_spec (Card.effective_rank cfg a) (Card.effective_rank cfg b)),
      (Z.leb_spec (Card.effective_rank cfg b) (Card.effective_rank cfg a));
    cbn; lia || done.
Qed.

(** X5: the order looks at the rank only, equality at the suit too.  Two
    cards of one rank and two suits are not [<] either way, are [<=] and [>=],
    and are not [==]. *)
Theorem same_rank_other_suit (cfg : Card.config) (a b : card) :
  rank a = rank b → suit a ≠ suit b →
  Card.__lt__ cfg a (VCard b) = Ok false ∧
  Card.__lt__ cfg b (VCard a) = Ok false ∧
  Card.__le__ cfg a (VCard b) = Ok true ∧
  Card.__ge__ cfg a (VCard b) = Ok true ∧
  Card.__eq__ a (VCard b) = Ok false.
Proof.
  intros Hr Hs.
  unfold Card.__lt__, Card.__le__, Card.__ge__, Card.effective_rank. cbv zeta.
  rewrite Hr, Z.ltb_irrefl, Z.leb_refl. split_and!; [done..|].
  unfold Card.__eq__, Card.same_rank, Card.same_suit. cbn [mbind result_bind].
  rewrite Hr. rewrite bool_decide_eq_true_2 by done. cbn [negb mbind result_bind].
  by rewrite bool_decide_eq_false_2.
Qed.

(** X6: the Ace is high or low as [set_ace_worth_1] says, the Joker is
    always lowest.  After [Card.set_ace_worth_1(b)], [get_ace_value()] is 1
    when [b] is true and 14 when it is false; an Ace is below a card of rank 2
    to 13 exactly when [b] is true and above it exactly when [b] is false; a
    Joker is below that card and below the Ace in both cases. *)
Theorem ace_and_joker_in_the_order (cfg : Card.config) (b : bool)
    (ace j c : card) :
  rank ace = 1 → rank j = 0 → 2 ≤ rank c ≤ 13 →
  ∃ cfg',
    Card.set_ace_worth_1 (VBool b) cfg = Ok cfg' ∧
    Card.get_ace_value cfg' = (if b then 1 else 14) ∧
    Card.__lt__ cfg' ace (VCard c) = Ok b ∧
    Card.__gt__ cfg' ace (VCard c) = Ok (negb b) ∧
    Card.__lt__ cfg' j (VCard c) = Ok true ∧
    Card.__lt__ cfg' j (VCard ace) = Ok true.
Proof.
  intros Hace Hj Hc. eexists. split; [reflexivity|].
  unfold Card.__lt__, Card.__gt__, Card.effective_rank, Card.get_ace_value.
  cbv zeta. cbn [Card.__ace_worth_1].
  rewrite Hace, Hj. rewrite (bool_decide_eq_true_2 (1 = 1)) by done.
  rewrite (bool_decide_eq_false_2 (0 = 1)) by done.
  rewrite (bool_decide_eq_false_2 (rank c = 1)) by lia.
  destruct b; split_and!; try done; f_equal; cbn; lia.
Qed.

End CardProperties.

(** * Further properties of the decks *)

Section DeckProperties.

Variable set_iter : gset string → list string.

Lemma flatten_groups (args : list pyval) (groups : list (list card)) :
  Forall2 is_group args groups →
  _flatten_nested_collections args = VCard <$> concat groups.
Proof.
  induction 1 as [|arg g args groups Hg _ IH]; [done|].
  cbn [_flatten_nested_collections flat_map concat] in *.
  rewrite fmap_app, <- IH. by destruct Hg.
Qed.

(** X7: however the cards are grouped in the arguments (one by one, in
    lists, in tuples, in decks, mixed), [Deck(...)] with at least one
    argument holds the cards of the groups, group after group, each in its
    order. *)
Theorem deck_of_grouped_arguments (args : list pyval)
    (groups : list (list card)) :
  args ≠ [] →
  Forall2 is_group args groups →
  Deck.__init__ set_iter args = Ok (concat groups).
Proof.
  intros Hne Hg. unfold Deck.__init__.
  destruct args as [|arg args]; [done|].
  rewrite (flatten_groups _ _ Hg). apply only_cards_VCard.
Qed.

Lemma only_cards_not_card (l : list pyval) :
  Exists (λ v, is_card v = false) l → only_cards l = Raise TypeError.
Proof.
  unfold only_cards. induction 1 as [v l Hv|v l _ IH]; cbn [mapM].
  - by destruct v.
  - destruct v; try done. cbn [mbind result_bind]. by rewrite IH.
Qed.

(** X8: flattening goes one level deep and everything it yields must be a
    card.  When one of the flattened arguments is not a card object (a
    number, a boolean, a list inside a list, ...), [Deck(...)] raises
    [TypeError], and so does [add], with or without a valid index. *)
Theorem non_card_argument_raises_TypeError (self : list card)
    (args : list pyval) (i : Z) :
  Exists (λ v, is_card v = false) (_flatten_nested_collections args) →
  - len self ≤ i ≤ len self →
  Deck.__init__ set_iter args = Raise TypeError ∧
  Deck.add self args VNone = Raise TypeError ∧
  Deck.add self args (VInt i) = Raise TypeError.
Proof.
  intros Hex Hi. pose proof (only_cards_not_card _ Hex) as Hraise.
  destruct args as [|arg args]; [by apply Exists_nil in Hex|].
  unfold Deck.__init__, Deck.add. rewrite Hraise.
  destruct (Z.ltb_spec i (- len self)); [lia|].
  destruct (Z.ltb_spec (len self) i); [lia|]. done.
Qed.

Lemma slice_bound_resolve (self : list card) (i : Z) :
  - len self ≤ i ≤ len self →
  slice_bound self i = Z.to_nat (resolve (len self) i).
Proof.
  intros Hi. unfold slice_bound, resolve.
  destruct (Z.ltb_spec i 0); f_equal; lia.
Qed.

(** X9: [add] puts the whole batch in one block and moves no other card.
    With arguments that are groups of cards and an index [i] from [-len] to
    [len], the new deck is the cards before the position [i] stands for, the
    batch in its order, then the cards from that position on; without an
    index the batch goes to the end, which is what the index [len] gives. *)
Theorem add_inserts_block (self : list card) (args : list pyval)
    (groups : list (list card)) (i : Z) :
  Forall2 is_group args groups →
  - len self ≤ i ≤ len self →
  Deck.add self args (VInt i)
    = Ok (take (Z.to_nat (resolve (len self) i)) self ++ concat groups
          ++ drop (Z.to_nat (resolve (len self) i)) self) ∧
  Deck.add self args VNone = Ok (self ++ concat groups) ∧
  Deck.add self args VNone = Deck.add self args (VInt (len self)).
Proof.
  intros Hg Hi.
  assert (Hat : ∀ j, - len self ≤ j ≤ len self →
            Deck.add self args (VInt j)
            = Ok (take (Z.to_nat (resolve (len self) j)) self ++ concat groups
                  ++ drop (Z.to_nat (resolve (len self) j)) self)).
  { intros j Hj. unfold Deck.add.
    destruct (Z.ltb_spec j (- len self)); [lia|].
    destruct (Z.ltb_spec (len self) j); [lia|].
    cbn [orb mbind result_bind].
    destruct args as [|arg args].
    - inversion Hg; subst. cbn [concat app]. by rewrite take_drop.
    - rewrite (flatten_groups _ _ Hg), only_cards_VCard.
      cbn [mbind result_bind]. unfold insert_slice.
      by rewrite slice_bound_resolve. }
  assert (Hend : Deck.add self args VNone = Ok (self ++ concat groups)).
  { unfold Deck.add. cbn [mbind result_bind].
    destruct args as [|arg args].
    - inversion Hg; subst. cbn [concat]. by rewrite app_nil_r.
    - by rewrite (flatten_groups _ _ Hg), only_cards_VCard. }
  split_and!; [by apply Hat | done |].
  rewrite Hend, Hat by (unfold len; lia).
  unfold resolve. destruct (Z.ltb_spec (len self) 0); [unfold len in *; lia|].
  unfold len. rewrite Nat2Z.id, firstn_all, drop_all, app_nil_r. done.
Qed.

(** X10: [deck[key] = card] then [deck[key]].  For an integer [key] from
    [-len] to [len - 1], the assignment succeeds, keeps the size, [deck[key]]
    is then the card assigned and every other position holds what it held. *)
Theorem setitem_then_getitem (self : list card) (key : Z) (c : card) :
  - len self ≤ key < len self →
  ∃ self',
    Deck.__setitem__ self (VInt key) (VCard c) = Ok self' ∧
    Deck.__len__ self' = Deck.__len__ self ∧
    Deck.__getitem__ self' (VInt key) = Ok (VCard c) ∧
    ∀ j, resolve (len self) j ≠ resolve (len self) key →
         Deck.__getitem__ self' (VInt j) = Deck.__getitem__ self (VInt j).
Proof.
  intros Hk. pose proof (resolve_range _ _ Hk) as Hr.
  set (k := resolve (len self) key) in *.
  exists (<[Z.to_nat k := c]> self).
  assert (Hlen : len (<[Z.to_nat k := c]> self) = len self)
    by (unfold len; by rewrite length_insert).
  split_and!.
  - unfold Deck.__setitem__. cbn [mbind result_bind]. fold (resolve (len self) key).
    fold k. destruct (Z.leb_spec 0 k), (Z.ltb_spec k (len self)); try lia. done.
  - done.
  - unfold Deck.__getitem__. rewrite Hlen. fold (resolve (len self) key). fold k.
    destruct (Z.leb_spec 0 k), (Z.ltb_spec k (len self)); try lia.
    cbn [andb negb]. unfold getitem.
    rewrite list_lookup_insert_eq by (unfold len in *; lia). done.
  - intros j Hj. unfold Deck.__getitem__. rewrite Hlen.
    fold (resolve (len self) j).
    destruct (Z.leb_spec 0 (resolve (len self) j)),
      (Z.ltb_spec (resolve (len self) j) (len self)); try done.
    cbn [andb negb]. unfold getitem.
    rewrite list_lookup_insert_ne by (fold k; lia). done.
Qed.

(** X11: [deck[i]] and [deck.get(i)] are the same for every integer [i]:
    the same card when [i] is from [-len] to [len - 1], [IndexError]
    otherwise. *)
Theorem getitem_is_get (self : list card) (i : Z) :
  Deck.__getitem__ self (VInt i) = Deck.get set_iter self [VInt i] ∧
  (- len self ≤ i < len self →
   ∃ c, getitem self (resolve (len self) i) = Some c
        ∧ Deck.__getitem__ self (VInt i) = Ok (VCard c)) ∧
  (¬ (- len self ≤ i < len self) →
   Deck.__getitem__ self (VInt i) = Raise IndexError).
Proof.
  assert (Hsame : Deck.__getitem__ self (VInt i) = Deck.get set_iter self [VInt i]).
  { unfold Deck.__getitem__, Deck.get.
    cbn [_flatten_nested_collections flat_map app mapM].
    destruct ((0 <=? (if i <? 0 then len self + i else i))
              && ((if i <? 0 then len self + i else i) <? len self)); [|done].
    cbn [negb]. by destruct (getitem self _). }
  split_and!; [done| |].
  - intros Hi. destruct (get_one_index set_iter self i Hi) as (c & Hc & Hget).
    exists c. by rewrite Hsame.
  - intros Hi. unfold Deck.__getitem__. unfold len in *.
    destruct (Z.ltb_spec i 0);
      destruct (Z.leb_spec 0 (Z.of_nat (length self) + i)),
        (Z.leb_spec 0 i),
        (Z.ltb_spec (Z.of_nat (length self) + i) (Z.of_nat (length self))),
        (Z.ltb_spec i (Z.of_nat (length self))); try lia; done.
Qed.

Lemma contains_card (self : list card) (c : card) :
  Deck.__contains__ self (VCard c) = Ok (contains card_eqb c self).
Proof.
  induction self as [|el rest IH]; [done|].
  cbn [Deck.__contains__ contains existsb]. rewrite Card_eq_card_eqb.
  destruct (card_eqb el c); [done|]. exact IH.
Qed.

Lemma index_of_first (c : card) (l : list card) :
  contains card_eqb c l = true →
  ∃ (k : nat) y,
    index_of card_eqb c l = Ok (Z.of_nat k) ∧ l !! k = Some y ∧
    card_eqb y c = true ∧
    ∀ (j : nat) z, (j < k)%nat → l !! j = Some z → card_eqb z c = false.
Proof.
  induction l as [|y l IH]; [done|].
  cbn [contains existsb index_of]. destruct (card_eqb y c) eqn:E.
  - intros _. exists 0%nat, y. split_and!; [done..|]. lia.
  - cbn [orb]. intros Hc. destruct (IH Hc) as (k & z & -> & Hz & Hzc & Hbefore).
    exists (S k), z. cbn [mbind result_bind]. split_and!; [f_equal; lia|done..|].
    intros [|j] w Hj Hw; cbn in Hw; [congruence|].
    eapply Hbefore; [|exact Hw]. lia.
Qed.

(** X12: [index] gives the first place of a card.  For a card [c] that is in
    the deck, [index(c)] is a position of the deck, [get] at that position
    returns a card equal to [c], and no earlier position holds one. *)
Theorem index_finds_first_equal_card (self : list card) (c : card) :
  Deck.__contains__ self (VCard c) = Ok true →
  ∃ k y,
    Deck.index self [VCard c] = Ok (VInt k) ∧
    0 ≤ k < len self ∧
    Deck.__getitem__ self (VInt k) = Ok (VCard y) ∧
    Card.__eq__ y (VCard c) = Ok true ∧
    ∀ j z, 0 ≤ j < k → Deck.__getitem__ self (VInt j) = Ok (VCard z) →
           Card.__eq__ z (VCard c) = Ok false.
Proof.
  rewrite contains_card. intros Hc. injection Hc as Hc.
  destruct (index_of_first c self Hc) as (k & y & Hidx & Hy & Hyc & Hbefore).
  pose proof (lookup_lt_Some _ _ _ Hy) as Hk.
  assert (Hget : ∀ (j : nat) z, self !! j = Some z →
            Deck.__getitem__ self (VInt (Z.of_nat j)) = Ok (VCard z)).
  { intros j z Hz. pose proof (lookup_lt_Some _ _ _ Hz).
    unfold Deck.__getitem__, getitem, len.
    destruct (Z.ltb_spec (Z.of_nat j) 0); [lia|].
    destruct (Z.leb_spec 0 (Z.of_nat j)); [|lia].
    destruct (Z.ltb_spec (Z.of_nat j) (Z.of_nat (length self))); [|lia].
    cbn [andb negb]. by rewrite Nat2Z.id, Hz. }
  exists (Z.of_nat k), y. split_and!.
  - unfold Deck.index. cbn [_flatten_nested_collections flat_map app mapM].
    rewrite Hc, Hidx. done.
  - lia.
  - unfold len. lia.
  - by apply Hget.
  - by rewrite Card_eq_card_eqb, Hyc.
  - intros j z Hj Hz. rewrite Card_eq_card_eqb. f_equal.
    destruct (lookup_lt_is_Some_2 self (Z.to_nat j)) as [w Hw]; [lia|].
    pose proof (Hget _ _ Hw) as Hgw. rewrite Z2Nat.id in Hgw by lia.
    rewrite Hgw in Hz. injection Hz as <-.
    eapply Hbefore; [|exact Hw]. lia.
Qed.

(** X13: a card that is not in the deck.  When [c in deck] is false,
    [index(c)] and [remove(c)] raise [ValueError]. *)
Theorem absent_card_raises_ValueError (self : list card) (c : card) :
  Deck.__contains__ self (VCard c) = Ok false →
  Deck.index self [VCard c] = Raise ValueError ∧
  Deck.remove self [VCard c] = Raise ValueError.
Proof.
  rewrite contains_card. intros Hc. injection Hc as Hc.
  unfold Deck.index, Deck.remove.
  cbn [_flatten_nested_collections flat_map app mapM Deck.remove_partition
       Deck.remove_classify].
  by rewrite Hc.
Qed.

(** X14: [item in deck] for an [item] that is neither a card object nor a
    deck (a number, a string, [None], a list, ...) raises [ValueError] as soon
    as the deck has a card to compare it with; on an empty deck it is false.
    Whichever operand of [==] the interpreter asks first, the comparison ends
    in [Card.__eq__], as these values have no [==] with a card of their
    own. *)
Theorem contains_non_card (self : list card) (item : pyval) :
  is_card item = false →
  (∀ d, item ≠ VDeck d) →
  Deck.__contains__ self item
    = match self with [] => Ok false | _ => Raise ValueError end.
Proof.
  intros Hitem _. destruct self as [|el rest]; [done|].
  cbn [Deck.__contains__]. by destruct item.
Qed.

Lemma get_mapM (self : list card) (indexes : list Z) :
  Forall (λ i, - len self ≤ i < len self) indexes →
  mapM (λ it,
          match it with
          | VInt i =>
              if (0 <=? resolve (len self) i) && (resolve (len self) i <? len self)
              then
                match getitem self (resolve (len self) i) with
                | Some c => Ok c
                | None => Raise IndexError
                end
              else Raise IndexError
          | _ => Raise TypeError
          end) (VInt <$> indexes)
  = Ok (at_positions self indexes) ∧
  length (at_positions self indexes) = length indexes.
Proof.
  induction 1 as [|i indexes Hi _ [IH IHlen]]; [done|].
  change (VInt <$> i :: indexes) with (VInt i :: (VInt <$> indexes)).
  cbn [mapM]. rewrite IH.
  pose proof (resolve_range _ _ Hi) as Hr.
  destruct (getitem_in_range self _ Hr) as [c Hc].
  destruct (Z.leb_spec 0 (resolve (len self) i)); [|lia].
  destruct (Z.ltb_spec (resolve (len self) i) (len self)); [|lia].
  cbn [andb]. rewrite Hc. cbn [mbind result_bind].
  unfold at_positions in *. cbn [omap list_omap]. rewrite Hc.
  split; [done|]. cbn [length]. by rewrite IHlen.
Qed.


Lemma get_returns_cards_in_order_aux (self : list card) (args : list pyval)
    (indexes : list Z) :
  args ≠ [] →
  _flatten_nested_collections args = VInt <$> indexes →
  Forall (λ i, - len self ≤ i < len self) indexes →
  ∃ v, Deck.get set_iter self args = Ok v ∧
       ((∃ c, v = VCard c) ∨ (∃ cs, v = VDeck cs)).
Proof.
  intros Hne Hflat Hr. destruct (get_mapM self indexes Hr) as [Hmap Hlen].
  unfold Deck.get. destruct args as [|arg args]; [done|].
  rewrite Hflat. cbv zeta. unfold resolve in Hmap.
  rewrite Hmap. cbn [mbind result_bind].
  destruct (at_positions self indexes) as [|c [|c' cs]] eqn:E.
  - exists (VDeck []). rewrite Deck_of_list. eauto.
  - exists (VCard c). eauto.
  - exists (VDeck (c :: c' :: cs)). rewrite Deck_of_list. eauto.
Qed.

Lemma Deck_of_card (c : card) : Deck.__init__ set_iter [VCard c] = Ok [c].
Proof. reflexivity. Qed.

Lemma Deck_of_deck (cs : list card) : Deck.__init__ set_iter [VDeck cs] = Ok cs.
Proof.
  unfold Deck.__init__. cbn [_flatten_nested_collections flat_map].
  rewrite app_nil_r. apply only_cards_VCard.
Qed.

(** X16: [draw()] with no index removes nothing.  On a deck that is not
    empty it returns the last card (inside a deck when the card is a Joker)
    and the deck stays as it was; on an empty deck it raises [IndexError]. *)
Theorem draw_without_index_removes_nothing (self : list card) :
  Deck.draw set_iter self []
    = match last self with
      | Some c => Ok (returned_by_draw c, self)
      | None => Raise IndexError
      end.
Proof.
  unfold Deck.draw, Deck.get, Deck.remove. destruct (last self) as [c|]; [|done].
  cbn [mbind result_bind]. unfold returned_by_draw.
  destruct c as [[] r s co f]; cbn [cls]; [done|].
  by rewrite Deck_of_card.
Qed.

Lemma draw_one_index (self : list card) (i : Z) :
  - len self ≤ i < len self →
  ∃ c,
    getitem self (resolve (len self) i) = Some c ∧
    Deck.draw set_iter self [VInt i]
      = Ok (returned_by_draw c, delete (Z.to_nat (resolve (len self) i)) self).
Proof.
  intros Hi. destruct (get_one_index set_iter self i Hi) as (c & Hc & Hget).
  exists c. split; [done|].
  unfold Deck.draw. rewrite Hget, remove_one_index by done.
  cbn [mbind result_bind]. unfold returned_by_draw.
  destruct c as [[] r s co f]; cbn [cls]; [done|].
  by rewrite Deck_of_card.
Qed.

(** X17: [draw(i)] for one valid index removes the card at the position [i]
    stands for and returns it: as the card object itself when its class is
    [Card], wrapped in a deck of one card when it is a Joker. *)
Theorem draw_one_card (self : list card) (i : Z) :
  - len self ≤ i < len self →
  ∃ c,
    getitem self (resolve (len self) i) = Some c ∧
    Deck.draw set_iter self [VInt i]
      = Ok (returned_by_draw c, delete (Z.to_nat (resolve (len self) i)) self).
Proof.
  intros Hi. destruct (get_one_index set_iter self i Hi) as (c & Hc & Hget).
  exists c. split; [done|].
  unfold Deck.draw. rewrite Hget, remove_one_index by done.
  cbn [mbind result_bind]. unfold returned_by_draw.
  destruct c as [[] r s co f]; cbn [cls]; [done|].
  by rewrite Deck_of_card.
Qed.

Lemma remove_indexes_eq (self : list card) (args : list pyval)
    (indexes : list Z) :
  _flatten_nested_collections args = VInt <$> indexes →
  Forall (λ i, - len self ≤ i < len self) indexes →
  Deck.remove self args = Ok (without_positions self indexes).
Proof.
  intros Hflat Hr.
  destruct (remove_partition_indexes self [] indexes [] Hr (NoDup_nil_2))
    as (idx & Hpart & Hnd & Hin).
  assert (Hin' : ∀ k, k ∈ idx ↔ k ∈ resolve (len self) <$> indexes).
  { intros k. rewrite Hin, elem_of_nil. tauto. }
  unfold Deck.remove. destruct args as [|arg args].
  - destruct indexes; [|discriminate Hflat]. f_equal. symmetry.
    apply omit_from_below. constructor.
  - rewrite Hflat, Hpart. cbn [mbind result_bind fold_left]. f_equal.
    rewrite pop_descending.
    + apply omit_from_ext. intros j _.
      unfold sort_reverse. rewrite sorted_perm. apply Hin'.
    + apply descending_NoDup_strict; [apply sort_reverse_descending|].
      unfold sort_reverse. by rewrite sorted_perm.
    + rewrite Forall_forall. intros k Hk.
      unfold sort_reverse in Hk. rewrite sorted_perm in Hk.
      apply Hin', list_elem_of_fmap in Hk as (i & -> & Hi).
      rewrite Forall_forall in Hr. by apply resolve_range, Hr.
Qed.

Lemma omit_from_pick {A} (l : list A) (n : nat) (k : Z) (R : list Z) (x : A) :
  k ∉ R → Z.of_nat n ≤ k → l !! (Z.to_nat k - n)%nat = Some x →
  omit_from n R l ≡ₚ x :: omit_from n (k :: R) l.
Proof.
  revert n. induction l as [|y l IH]; intros n Hk Hn Hx; [done|].
  cbn [omit_from existsb].
  destruct (Z.eqb_spec (Z.of_nat n) k) as [Heq|Hneq].
  - cbn [orb]. replace (Z.to_nat k - n)%nat with 0%nat in Hx by lia.
    injection Hx as ->.
    assert (existsb (Z.eqb (Z.of_nat n)) R = false) as ->.
    { apply not_true_is_false. rewrite existsb_Zeqb. by rewrite Heq. }
    constructor. apply Permutation_refl'. apply omit_from_ext.
    intros j Hj. rewrite elem_of_cons. split; [tauto|].
    intros [Hjk|]; [lia | done].
  - cbn [orb]. assert (Hx' : l !! (Z.to_nat k - S n)%nat = Some x).
    { replace (Z.to_nat k - n)%nat with (S (Z.to_nat k - S n)) in Hx by lia.
      exact Hx. }
    destruct (existsb (Z.eqb (Z.of_nat n)) R).
    + apply IH; [done|lia|done].
    + rewrite (IH (S n)) by (done || lia). apply perm_swap.
Qed.

Lemma at_positions_perm (self : list card) (indexes : list Z) :
  NoDup (resolve (len self) <$> indexes) →
  Forall (λ i, - len self ≤ i < len self) indexes →
  at_positions self indexes ++ without_positions self indexes ≡ₚ self.
Proof.
  unfold at_positions, without_positions.
  induction indexes as [|i indexes IH]; intros Hnd Hr.
  - cbn. rewrite omit_from_below; [done | constructor].
  - apply Forall_cons in Hr as [Hi Hr].
    cbn [fmap list_fmap] in Hnd. apply NoDup_cons in Hnd as [Hnotin Hnd].
    pose proof (resolve_range _ _ Hi) as Hk.
    destruct (getitem_in_range self _ Hk) as [x Hx].
    cbn [omap list_omap fmap list_fmap]. rewrite Hx. cbn [app].
    assert (Hpick : omit_from 0 (resolve (len self) <$> indexes) self
                    ≡ₚ x :: omit_from 0 (resolve (len self) i
                                         :: (resolve (len self) <$> indexes)) self).
    { apply omit_from_pick; [done|lia|].
      unfold getitem in Hx. by rewrite Nat.sub_0_r. }
    etrans; [|exact (IH Hnd Hr)]. rewrite Hpick. apply Permutation_middle.
Qed.

(** X18: [draw] with several distinct indexes splits the deck in two.  When
    the arguments flatten to valid indexes that stand for different positions,
    [draw] returns the cards at these positions, in the order asked, and
    leaves the other cards in their order; the cards returned and the cards
    left are together the cards the deck had. *)
Theorem draw_splits_the_deck (self : list card) (args : list pyval)
    (indexes : list Z) :
  args ≠ [] →
  _flatten_nested_collections args = VInt <$> indexes →
  Forall (λ i, - len self ≤ i < len self) indexes →
  NoDup (resolve (len self) <$> indexes) →
  ∃ v self',
    Deck.draw set_iter self args = Ok (v, self') ∧
    cards_of v = at_positions self indexes ∧
    self' = without_positions self indexes ∧
    cards_of v ++ self' ≡ₚ self.
Proof.
  intros Hne Hflat Hr Hnd.
  destruct (get_returns_cards_in_order_aux self args indexes Hne Hflat Hr)
    as (v0 & Hget & Hv0).
  unfold Deck.draw. rewrite Hget, (remove_indexes_eq _ _ _ Hflat Hr).
  cbn [mbind result_bind].
  assert (Hret : ∃ v, (match v0 with
                       | VCard {| cls := CardT |} => Ok v0
                       | _ => d ← Deck.__init__ set_iter [v0]; Ok (VDeck d)
                       end) = Ok v ∧ cards_of v = cards_of v0).
  { destruct Hv0 as [(c & ->)|(cs & ->)].
    - destruct c as [[] r s co f]; [by eexists|].
      exists (VDeck [{| cls := JokerT; rank := r; suit := s; color := co;
                        face_card := f |}]). done.
    - exists (VDeck cs). by rewrite Deck_of_deck. }
  destruct Hret as (v & -> & Hv). cbn [mbind result_bind].
  exists v, (without_positions self indexes).
  assert (Hcards : cards_of v = at_positions self indexes).
  { rewrite Hv. destruct Hv0 as [(c & ->)|(cs & ->)]; cbn [cards_of];
      destruct (get_mapM self indexes Hr) as [Hmap _];
      unfold Deck.get in Hget; destruct args as [|arg args]; try done;
      rewrite Hflat in Hget; cbv zeta in Hget; unfold resolve in Hmap;
      rewrite Hmap in Hget; cbn [mbind result_bind] in Hget;
      destruct (at_positions self indexes) as [|c0 [|c1 cs0]];
      try rewrite Deck_of_list in Hget; cbn [mbind result_bind] in Hget;
      congruence. }
  split_and!; [done..|]. rewrite Hcards. by apply at_positions_perm.
Qed.

Lemma remove_first_split (c : card) (l : list card) :
  contains card_eqb c l = true →
  ∃ l1 y l2,
    l = l1 ++ y :: l2 ∧ card_eqb y c = true ∧
    Forall (λ z, card_eqb z c = false) l1 ∧
    remove_first card_eqb c l = Ok (l1 ++ l2).
Proof.
  induction l as [|z l IH]; [done|].
  cbn [contains existsb remove_first]. destruct (card_eqb z c) eqn:E.
  - intros _. by exists [], z, l.
  - cbn [orb]. intros Hc. destruct (IH Hc) as (l1 & y & l2 & -> & Hy & Hl1 & ->).
    exists (z :: l1), y, l2. split_and!; [done..| |done]. by constructor.
Qed.

(** X19: [remove(c)] removes the first card equal to [c].  For a card [c]
    that is in the deck, the deck is some cards none of which equals [c], a
    card equal to [c], and the rest; after [remove(c)] it is the first cards
    followed by the rest. *)
Theorem remove_card_removes_first_equal (self : list card) (c : card) :
  Deck.__contains__ self (VCard c) = Ok true →
  ∃ before y after,
    self = before ++ y :: after ∧
    Card.__eq__ y (VCard c) = Ok true ∧
    Forall (λ z, Card.__eq__ z (VCard c) = Ok false) before ∧
    Deck.remove self [VCard c] = Ok (before ++ after).
Proof.
  rewrite contains_card. intros Hc. injection Hc as Hc.
  destruct (remove_first_split c self Hc) as (l1 & y & l2 & Hself & Hy & Hl1 & Hrm).
  exists l1, y, l2. split_and!; [done| | |].
  - by rewrite Card_eq_card_eqb, Hy.
  - eapply Forall_impl; [exact Hl1|]. intros z Hz. cbn in Hz.
    by rewrite Card_eq_card_eqb, Hz.
  - unfold Deck.remove.
    cbn [_flatten_nested_collections flat_map app Deck.remove_partition
         Deck.remove_classify].
    rewrite Hc. cbn [mbind result_bind app]. unfold Deck.remove_card.
    cbn [sort_reverse sorted foldr fold_left]. by rewrite Hc, Hrm.
Qed.

Lemma contains_count (c : card) (l : list card) :
  contains card_eqb c l = true ↔ (0 < count_equal c l)%nat.
Proof.
  unfold count_equal. induction l as [|y l IH]; cbn [contains existsb List.filter].
  - cbn. split; [done | lia].
  - destruct (card_eqb y c); cbn [orb length]; [split; [lia | done]|exact IH].
Qed.

Lemma remove_card_effect (c : card) (l : list card) :
  others c (Deck.remove_card l c) = others c l ∧
  count_equal c (Deck.remove_card l c) = (count_equal c l - 1)%nat.
Proof.
  unfold Deck.remove_card. destruct (contains card_eqb c l) eqn:Hc.
  - destruct (remove_first_split c l Hc) as (l1 & y & l2 & -> & Hy & Hl1 & ->).
    unfold others, count_equal. rewrite !List.filter_app. cbn [List.filter].
    rewrite Hy. cbn [negb length]. rewrite !length_app. cbn [length]. split; [done|lia].
  - split; [done|].
    assert (¬ (0 < count_equal c l)%nat) by (rewrite <- contains_count; congruence).
    lia.
Qed.

Lemma flatten_replicate_card (c : card) (n : nat) :
  _flatten_nested_collections (replicate n (VCard c)) = replicate n (VCard c).
Proof.
  unfold _flatten_nested_collections.
  induction n as [|n IH]; [done|]. cbn [replicate flat_map app]. by rewrite IH.
Qed.

Lemma remove_partition_cards (self : list card) (c : card) (n : nat)
    (acc : list card) :
  contains card_eqb c self = true →
  Deck.remove_partition self ([], acc) (replicate n (VCard c))
    = Ok ([], acc ++ replicate n c).
Proof.
  intros Hc. revert acc. induction n as [|n IH]; intros acc.
  - cbn. by rewrite app_nil_r.
  - cbn [replicate Deck.remove_partition Deck.remove_classify]. rewrite Hc.
    cbn [mbind result_bind]. rewrite IH, <- app_assoc. done.
Qed.

(** X20: asking [remove] for the same card several times.  For a card [c]
    that is in the deck and [n >= 1] requests, [remove] does not raise; it
    takes out [n] cards equal to [c], or all of them when the deck has fewer,
    and the cards that are not equal to [c] stay, in their order. *)
Theorem remove_same_card_repeatedly (self : list card) (c : card) (n : nat) :
  Deck.__contains__ self (VCard c) = Ok true →
  (1 ≤ n)%nat →
  ∃ self',
    Deck.remove self (replicate n (VCard c)) = Ok self' ∧
    count_equal c self' = (count_equal c self - n)%nat ∧
    others c self' = others c self ∧
    length self' = (length self - n `min` count_equal c self)%nat.
Proof.
  rewrite contains_card. intros Hc Hn. injection Hc as Hc.
  assert (Hfold : ∀ m l,
            count_equal c (fold_left Deck.remove_card (replicate m c) l)
              = (count_equal c l - m)%nat ∧
            others c (fold_left Deck.remove_card (replicate m c) l) = others c l).
  { induction m as [|m IH]; intros l; cbn [replicate fold_left].
    - split; [lia | done].
    - destruct (IH (Deck.remove_card l c)) as [-> ->].
      destruct (remove_card_effect c l) as [-> ->]. split; [lia | done]. }
  assert (Hlen : ∀ l, length l = (count_equal c l + length (others c l))%nat).
  { intros l. unfold count_equal, others.
    induction l as [|y l IH]; [done|]. cbn [List.filter length].
    destruct (card_eqb y c); cbn [negb length]; lia. }
  exists (fold_left Deck.remove_card (replicate n c) self).
  destruct (Hfold n self) as [Hcount Hothers]. split_and!; [|done|done|].
  - unfold Deck.remove. destruct n as [|n]; [lia|].
    rewrite flatten_replicate_card.
    rewrite (remove_partition_cards self c (S n) [] Hc).
    cbn [replicate mbind result_bind app sort_reverse sorted foldr fold_left].
    done.
  - rewrite (Hlen (fold_left _ _ _)), (Hlen self), Hcount, Hothers. lia.
Qed.

(** *** Sorting *)

Lemma pair_le_total (a b : Z * Z) : pair_le a b = true ∨ pair_le b a = true.
Proof.
  unfold pair_le. destruct a as [a1 a2], b as [b1 b2]. cbn [fst snd].
  destruct (Z.ltb_spec a1 b1), (Z.ltb_spec b1 a1), (Z.eqb_spec a1 b1),
    (Z.eqb_spec b1 a1), (Z.leb_spec a2 b2), (Z.leb_spec b2 a2);
    cbn; try lia; tauto.
Qed.

Lemma pair_le_trans (a b c : Z * Z) :
  pair_le a b = true → pair_le b c = true → pair_le a c = true.
Proof.
  unfold pair_le. destruct a as [a1 a2], b as [b1 b2], c as [c1 c2].
  cbn [fst snd].
  destruct (Z.ltb_spec a1 b1), (Z.ltb_spec b1 c1), (Z.ltb_spec a1 c1),
    (Z.eqb_spec a1 b1), (Z.eqb_spec b1 c1), (Z.eqb_spec a1 c1),
    (Z.leb_spec a2 b2), (Z.leb_spec b2 c2), (Z.leb_spec a2 c2);
    cbn; try lia; try done.
Qed.

Lemma sorted_by_key {A} (key : A → Z * Z) (l : list A) :
  StronglySorted (λ a b, pair_le (key a) (key b) = true) (sorted key pair_le l).
Proof.
  induction l as [|x l IH]; [constructor|].
  unfold sorted in *. cbn [foldr]. revert IH.
  generalize (foldr (insert_sorted key pair_le) [] l). clear l.
  induction 1 as [|y l Hl IH Hy]; cbn [insert_sorted].
  - repeat constructor.
  - destruct (pair_le (key x) (key y)) eqn:E.
    + constructor; [by constructor|]. constructor; [done|].
      eapply Forall_impl; [exact Hy|]. cbn. intros z Hz.
      by eapply pair_le_trans.
    + constructor; [done|]. rewrite insert_sorted_perm.
      constructor; [|done]. destruct (pair_le_total (key x) (key y)); congruence.
Qed.

Lemma sorted_fixpoint {A} (key : A → Z * Z) (l : list A) :
  StronglySorted (λ a b, pair_le (key a) (key b) = true) l →
  sorted key pair_le l = l.
Proof.
  induction 1 as [|x l Hl IH Hx]; [done|].
  unfold sorted in *. cbn [foldr]. rewrite IH.
  destruct l as [|y l]; [done|]. cbn [insert_sorted].
  apply Forall_cons in Hx as [-> _]. done.
Qed.

Lemma StronglySorted_weaken {A} (R1 R2 : A → A → Prop) (l : list A) :
  (∀ a b, R1 a b → R2 a b) → StronglySorted R1 l → StronglySorted R2 l.
Proof.
  intros HR. induction 1 as [|x l Hl IH Hx]; constructor; [done|].
  eapply Forall_impl; [exact Hx | apply HR].
Qed.

Lemma key_rank_effective (cfg : Card.config) (c : card) :
  Deck.key_rank cfg c = Card.effective_rank cfg c.
Proof.
  unfold Deck.key_rank, Card.effective_rank.
  destruct (Z.eqb_spec (rank c) 1); cbn [negb];
    [by rewrite bool_decide_eq_true_2 | by rewrite bool_decide_eq_false_2].
Qed.

(** X21: [sort_by_rank] keeps the cards and puts them in the order of the
    comparison operators.  Under any setting of the Ace, the sorted deck is a
    permutation of the deck; a card that comes before another is [<=] it, and
    when the two have the same effective rank its suit is not the greater;
    sorting again changes nothing. *)
Theorem sort_by_rank_orders_the_deck (cfg : Card.config) (self : list card) :
  Deck.sort_by_rank cfg self ≡ₚ self ∧
  StronglySorted
    (λ a b, Card.__le__ cfg a (VCard b) = Ok true ∧
            (Card.__le__ cfg b (VCard a) = Ok true → suit a ≤ suit b))
    (Deck.sort_by_rank cfg self) ∧
  Deck.sort_by_rank cfg (Deck.sort_by_rank cfg self) = Deck.sort_by_rank cfg self.
Proof.
  unfold Deck.sort_by_rank. split_and!.
  - apply sorted_perm.
  - eapply StronglySorted_weaken; [|apply sorted_by_key].
    intros a b. cbn beta. unfold pair_le, Card.__le__. cbn [fst snd]. cbv zeta.
    rewrite !key_rank_effective. intros H.
    destruct (Z.ltb_spec (Card.effective_rank cfg a) (Card.effective_rank cfg b)),
      (Z.eqb_spec (Card.effective_rank cfg a) (Card.effective_rank cfg b)),
      (Z.leb_spec (suit a) (suit b)),
      (Z.leb_spec (Card.effective_rank cfg a) (Card.effective_rank cfg b)),
      (Z.leb_spec (Card.effective_rank cfg b) (Card.effective_rank cfg a));
      cbn in H; try discriminate H; try lia; split; try done; intros ?; try lia;
      discriminate.
  - apply sorted_fixpoint, sorted_by_key.
Qed.

(** X22: [sort_by_suit] keeps the cards and groups them by suit.  The sorted
    deck is a permutation of the deck; a card that comes before another has a
    suit that is not greater, and when the suits are the same it is [<=] the
    other; sorting again changes nothing. *)
Theorem sort_by_suit_orders_the_deck (cfg : Card.config) (self : list card) :
  Deck.sort_by_suit cfg self ≡ₚ self ∧
  StronglySorted
    (λ a b, suit a ≤ suit b ∧
            (suit a = suit b → Card.__le__ cfg a (VCard b) = Ok true))
    (Deck.sort_by_suit cfg self) ∧
  Deck.sort_by_suit cfg (Deck.sort_by_suit cfg self) = Deck.sort_by_suit cfg self.
Proof.
  unfold Deck.sort_by_suit. split_and!.
  - apply sorted_perm.
  - eapply StronglySorted_weaken; [|apply sorted_by_key].
    intros a b. cbn beta. unfold pair_le, Card.__le__. cbn [fst snd]. cbv zeta.
    rewrite !key_rank_effective. intros H.
    destruct (Z.ltb_spec (suit a) (suit b)), (Z.eqb_spec (suit a) (suit b)),
      (Z.leb_spec (Card.effective_rank cfg a) (Card.effective_rank cfg b));
      cbn in H; try discriminate H; try lia; split; try lia; try done;
      intros ?; lia.
  - apply sorted_fixpoint, sorted_by_key.
Qed.

(** *** Random draws *)

(** X23: [get_random] samples without replacement and leaves the deck
    alone.  For every [amount] it raises nothing and returns
    [min(amount, len)] cards (none when [amount] is not positive), each of
    them a card of the deck; when the cards have correct attributes no card
    comes more often than the deck holds it; [self.cards] is as it was. *)
Theorem get_random_samples_without_replacement (h : gmap positive (list card))
    (self : positive) (cards : list card) (amount : Z) (draws : nat → nat) :
  h !! self = Some cards →
  ∃ v h',
    Deck.get_random set_iter self amount draws h = Ok (v, h') ∧
    length (cards_of v) = (Z.to_nat amount `min` length cards)%nat ∧
    cards_of v ⊆ cards ∧
    (correct_attributes cards → cards_of v ⊆+ cards) ∧
    h' !! self = Some cards.
Proof.
  intros Hself. unfold Deck.get_random, Heap.alloc.
  assert (Hread : Heap.read self h = cards) by (unfold Heap.read; by rewrite Hself).
  rewrite Hread.
  set (p := fresh (dom h)).
  set (h1 := <[p := cards]> h).
  set (c := fresh (dom h1)).
  set (h2 := <[c := []]> h1).
  assert (Hp : p ∉ dom h) by apply is_fresh.
  assert (Hc : c ∉ dom h1) by apply is_fresh.
  assert (Hpc : p ≠ c).
  { intros <-. apply Hc. unfold h1. rewrite dom_insert_L. set_solver. }
  assert (Hrp : Heap.read p h2 = cards).
  { unfold h2. rewrite (read_write_ne c p) by done. apply read_write. }
  assert (Hrc : Heap.read c h2 = []) by apply read_write.
  destruct (get_random_loop_spec (Z.to_nat amount) draws p c h2 Hpc)
    as (h' & -> & Hframe & Hsame & Hsub & Hlen & Hall).
  cbn [mbind result_bind]. rewrite Hrp, Hrc in *. cbn [app length] in *.
  assert (Hin : self ∈ dom h) by (apply elem_of_dom; by eexists).
  assert (Hold : h' !! self = Some cards).
  { rewrite Hframe.
    - unfold h2, h1. rewrite !lookup_insert_ne; [done|..]; intros <-; try done.
      apply Hc. unfold h1. rewrite dom_insert_L. set_solver.
    - intros ->. done.
    - intros ->. apply Hc. unfold h1. rewrite dom_insert_L. set_solver. }
  assert (Hres : ∃ v, (match Heap.read c h' with
                       | [c0] => Ok (VCard c0, h')
                       | cs => d ← Deck.__init__ set_iter [VList (VCard <$> cs)];
                               Ok (VDeck d, h')
                       end) = Ok (v, h') ∧ cards_of v = Heap.read c h').
  { destruct (Heap.read c h') as [|c0 [|c1 cs]] eqn:E.
    - exists (VDeck []). by rewrite Deck_of_list.
    - by exists (VCard c0).
    - exists (VDeck (c0 :: c1 :: cs)). by rewrite Deck_of_list. }
  destruct Hres as (v & Hv & Hcards).
  exists v, h'. rewrite Hcards. split_and!; [exact Hv|done| | |done].
  - intros x Hx. apply Hsub, elem_of_app. by left.
  - intros Hok.
    assert (Hperm : Heap.read c h' ++ Heap.read p h' ≡ₚ cards).
    { apply same_cards_perm; [|done..].
      unfold correct_attributes in *. rewrite Forall_forall in *.
      intros x Hx. apply Hok, Hsub, Hx. }
    rewrite <- Hperm. by apply submseteq_inserts_r.
Qed.

Lemma randint_range (d : nat) (n : Z) :
  0 < n → 0 ≤ randint d 0 (n - 1) < n.
Proof.
  intros Hn. unfold randint. replace (n - 1 - 0 + 1) with n by lia.
  pose proof (Z.mod_pos_bound (Z.of_nat d) n Hn). lia.
Qed.

(** The loop of [draw_random] raises nothing: it draws
    [min(amount, len)] cards one by one, and the cards drawn and the cards
    left are together the cards of the deck. *)
Lemma draw_random_loop_spec (amount : nat) (draws : nat → nat)
    (self : list card) (acc : list pyval) :
  ∃ drawn self',
    Deck.draw_random_loop set_iter amount draws self acc
      = Ok (acc ++ (returned_by_draw <$> drawn), self') ∧
    drawn ++ self' ≡ₚ self ∧
    length drawn = (amount `min` length self)%nat.
Proof.
  revert draws self acc. induction amount as [|amount IH]; intros draws self acc;
    cbn [Deck.draw_random_loop].
  { exists [], self. cbn. by rewrite app_nil_r. }
  case_bool_decide as Hlen.
  2:{ exists [], self. cbn [fmap list_fmap app length]. rewrite app_nil_r.
      split_and!; [done..|]. unfold len in Hlen. lia. }
  pose proof (randint_range (draws 0%nat) (len self)) as Hk.
  set (k := randint (draws 0%nat) 0 (len self - 1)) in *.
  assert (Hres : resolve (len self) k = k).
  { unfold resolve. destruct (Z.ltb_spec k 0); lia. }
  destruct (draw_one_index self k) as (c & Hc & ->); [lia|].
  rewrite Hres in *. cbn [mbind result_bind].
  destruct (IH (λ n, draws (S n)) (delete (Z.to_nat k) self)
              (acc ++ [returned_by_draw c])) as (drawn & self' & -> & Hperm & Hl).
  exists (c :: drawn), self'. split_and!.
  - cbn [fmap list_fmap]. by rewrite <- app_assoc.
  - cbn [app]. rewrite Hperm. symmetry. by apply delete_Permutation.
  - cbn [length]. rewrite Hl, length_delete by (unfold getitem in Hc; eauto).
    unfold len in *. lia.
Qed.

(** X24: [draw_random] on a deck without Jokers.  It raises nothing, returns
    [min(amount, len)] cards and takes them out of the deck: the cards
    returned and the cards left are together the cards the deck had. *)
Theorem draw_random_without_jokers (self : list card) (amount : Z)
    (draws : nat → nat) :
  Forall (λ c, cls c = CardT) self →
  ∃ v self',
    Deck.draw_random set_iter self amount draws = Ok (v, self') ∧
    length (cards_of v) = (Z.to_nat amount `min` length self)%nat ∧
    cards_of v ++ self' ≡ₚ self.
Proof.
  intros Hcls. unfold Deck.draw_random.
  destruct (draw_random_loop_spec (Z.to_nat amount) draws self [])
    as (drawn & self' & -> & Hperm & Hlen).
  cbn [app mbind result_bind].
  assert (Hdrawn : returned_by_draw <$> drawn = VCard <$> drawn).
  { apply Forall_fmap_ext_1. rewrite Forall_forall in *. intros c Hc.
    unfold returned_by_draw. rewrite Hcls; [done|].
    rewrite <- Hperm. apply elem_of_app. by left. }
  rewrite Hdrawn. destruct drawn as [|c [|c' drawn]].
  - exists (VDeck []), self'. rewrite (Deck_of_list set_iter []). done.
  - exists (VCard c), self'. done.
  - exists (VDeck (c :: c' :: drawn)), self'.
    rewrite (Deck_of_list set_iter (c :: c' :: drawn)). done.
Qed.

(** X25: [draw_random] of two cards or more cannot return a Joker.  A Joker
    comes back from [draw] inside a deck, and the deck built from the cards
    drawn refuses it: when the deck holds a Joker and [amount] is at least the
    size of the deck, which is two or more, [draw_random] raises
    [TypeError]. *)
Theorem draw_random_with_joker_raises_TypeError (self : list card)
    (amount : Z) (draws : nat → nat) :
  Exists (λ c, cls c = JokerT) self →
  2 ≤ len self ≤ amount →
  Deck.draw_random set_iter self amount draws = Raise TypeError.
Proof.
  intros Hjoker Hlen. unfold Deck.draw_random.
  destruct (draw_random_loop_spec (Z.to_nat amount) draws self [])
    as (drawn & self' & -> & Hperm & Hl).
  cbn [app mbind result_bind].
  assert (Hl' : length drawn = length self) by (unfold len in Hlen; lia).
  assert (self' = []) as ->.
  { apply Permutation_length in Hperm. rewrite length_app in Hperm.
    apply length_zero_iff_nil. lia. }
  rewrite app_nil_r in Hperm.
  assert (Hex : Exists (λ v, is_card v = false) (returned_by_draw <$> drawn)).
  { rewrite <- Hperm in Hjoker. apply Exists_exists in Hjoker as (c & Hin & Hc).
    apply Exists_exists. exists (returned_by_draw c).
    split; [by apply list_elem_of_fmap_2|]. unfold returned_by_draw. by rewrite Hc. }
  destruct drawn as [|c [|c' drawn]]; cbn [length] in Hl';
    [unfold len in Hlen; lia..|].
  set (vals := returned_by_draw <$> c :: c' :: drawn) in *.
  assert (Deck.__init__ set_iter [VList vals] = Raise TypeError) as Hinit.
  { unfold Deck.__init__. cbn [_flatten_nested_collections flat_map].
    rewrite app_nil_r. by apply only_cards_not_card. }
  unfold vals in *. cbn [fmap list_fmap] in *. by rewrite Hinit.
Qed.

(** *** [select] *)

Lemma filterM_pure {A} (f : A → result bool) (p : A → bool) (l : list A) :
  (∀ x, f x = Ok (p x)) → filterM f l = Ok (List.filter p l).
Proof.
  intros Hf. induction l as [|x l IH]; [done|].
  cbn [filterM List.filter]. rewrite Hf, IH. done.
Qed.

Lemma filter_filter_and {A} (p q : A → bool) (l : list A) :
  List.filter q (List.filter p l) = List.filter (λ x, p x && q x) l.
Proof.
  induction l as [|x l IH]; [done|]. cbn [List.filter].
  destruct (p x); cbn [List.filter andb]; [destruct (q x)|]; by rewrite IH.
Qed.

Lemma separate_exclusions_ints (crit : list Z) :
  Forall (λ z, z ≠ 0) crit →
  Deck.separate_exclusions (VInt <$> crit)
    = (VInt <$> rev (excluded crit), VInt <$> included crit).
Proof.
  unfold excluded, included.
  induction 1 as [|z crit Hz _ IH]; [done|].
  cbn [fmap list_fmap Deck.separate_exclusions List.filter] in *. rewrite IH.
  destruct (Z.ltb_spec z 0), (Z.ltb_spec 0 z); try lia.
  - cbn [fmap list_fmap rev]. by rewrite fmap_app.
  - done.
Qed.

(** One stage of [select] on integer criteria, for the rank stage and for the
    suit stage: [attr] is the attribute the stage looks at, [bound] its
    greatest value. *)
Section SelectStage.

Variable get_test_card : pyval → result card.
Variable same : card → pyval → result bool.
Variable attr : card → Z.
Variable bound : Z.
Hypothesis get_test_card_int :
  ∀ z, 1 ≤ z ≤ bound → ∃ t, get_test_card (VInt z) = Ok t ∧ attr t = z.
Hypothesis same_attr :
  ∀ c t, same c (VCard t) = Ok (bool_decide (attr c = attr t)).

Lemma exclusion_pass (es : list Z) (sel : list card) :
  Forall (λ e, 1 ≤ e ≤ bound) es →
  foldM (λ selected_cards r,
           filterM (λ card, t ← get_test_card r;
                            b ← same card (VCard t);
                            Ok (negb b))
                   selected_cards)
        sel (VInt <$> es)
  = Ok (List.filter (λ c, negb (existsb (Z.eqb (attr c)) es)) sel).
Proof.
  intros Hes. revert sel. induction Hes as [|e es He _ IH]; intros sel.
  - cbn. f_equal. symmetry. by apply forallb_filter_id, forallb_forall.
  - cbn [fmap list_fmap foldM]. destruct (get_test_card_int e He) as (t & Ht & Hat).
    rewrite (filterM_pure _ (λ c, negb (bool_decide (attr c = e)))).
    2:{ intros c. rewrite Ht. cbn [mbind result_bind].
        rewrite same_attr, Hat. done. }
    cbn [mbind result_bind]. rewrite IH, filter_filter_and. f_equal.
    apply List.filter_ext. intros c. cbn [existsb].
    case_bool_decide as E; destruct (Z.eqb_spec (attr c) e); try done.
Qed.

Lemma inclusion_pass (vs : list Z) (sel acc : list card) :
  Forall (λ v, 1 ≤ v ≤ bound) vs →
  foldM (λ filtered_cards r,
           more ← filterM (λ card, t ← get_test_card r; same card (VCard t)) sel;
           Ok (filtered_cards ++ more))
        acc (VInt <$> vs)
  = Ok (acc ++ (v ← vs; List.filter (λ c, bool_decide (attr c = v)) sel)).
Proof.
  intros Hvs. revert acc. induction Hvs as [|v vs Hv _ IH]; intros acc.
  - cbn. by rewrite app_nil_r.
  - cbn [fmap list_fmap foldM]. destruct (get_test_card_int v Hv) as (t & Ht & Hat).
    rewrite (filterM_pure _ (λ c, bool_decide (attr c = v))).
    2:{ intros c. rewrite Ht. cbn [mbind result_bind].
        rewrite same_attr, Hat. done. }
    cbn [mbind result_bind]. rewrite IH. cbn. by rewrite <- app_assoc.
Qed.

Lemma select_stage_ints (self : list card) (crit : list Z) :
  crit ≠ [] →
  Forall (λ z, 1 ≤ Z.abs z ≤ bound) crit →
  Deck.select_stage get_test_card same self (VList (VInt <$> crit))
    = Ok (selected_by attr crit self).
Proof.
  intros Hne Hcrit. unfold Deck.select_stage.
  cbn [Deck.criteria_list mbind result_bind].
  rewrite separate_exclusions_ints.
  2:{ eapply Forall_impl; [exact Hcrit|]. cbn. lia. }
  assert (Hex : Forall (λ e, 1 ≤ e ≤ bound) (rev (excluded crit))).
  { rewrite Forall_forall in *. intros e He. apply list_elem_of_In in He.
    apply in_rev in He. apply list_elem_of_In in He.
    unfold excluded in He. apply list_elem_of_fmap in He as (z & -> & Hz).
    apply list_elem_of_In, filter_In in Hz as [Hz Hneg].
    apply list_elem_of_In in Hz. specialize (Hcrit z Hz).
    apply Z.ltb_lt in Hneg. lia. }
  assert (Hin : Forall (λ v, 1 ≤ v ≤ bound) (included crit)).
  { rewrite Forall_forall in *. intros v Hv. unfold included in Hv.
    apply list_elem_of_In, filter_In in Hv as [Hv Hpos].
    apply list_elem_of_In in Hv. specialize (Hcrit v Hv).
    apply Z.ltb_lt in Hpos. lia. }
  rewrite (exclusion_pass _ _ Hex). cbn [mbind result_bind].
  rewrite (inclusion_pass _ _ _ Hin). cbn [mbind result_bind app].
  assert (Hres : (v ← included crit;
                  List.filter (λ c, bool_decide (attr c = v))
                    (List.filter
                       (λ c, negb (existsb (Z.eqb (attr c)) (rev (excluded crit))))
                       self))
                 = selected_by attr crit self).
  { unfold selected_by. apply list_bind_ext; [|done]. intros v.
    rewrite filter_filter_and. apply List.filter_ext. intros c.
    rewrite andb_comm. f_equal. f_equal.
    apply eq_true_iff_eq. rewrite !existsb_exists.
    split; intros (x & Hx & Hxe); exists x; (split; [|done]);
      [by rewrite <- in_rev in Hx | by rewrite <- in_rev]. }
  rewrite Hres.
  destruct (rev (excluded crit)) as [|e es] eqn:Ee,
    (included crit) as [|v vs] eqn:Ei; try done.
  exfalso. apply Hne.
  assert (excluded crit = []) as Ee'.
  { apply (f_equal (@rev Z)) in Ee. by rewrite rev_involutive in Ee. }
  unfold excluded, included in *. apply fmap_nil_inv in Ee'.
  destruct crit as [|z crit]; [done|]. apply Forall_cons in Hcrit as [Hz _].
  cbn [List.filter] in *.
  destruct (Z.ltb_spec z 0), (Z.ltb_spec 0 z); try done. lia.
Qed.

Lemma select_stage_scalar (self : list card) (z : Z) :
  1 ≤ z ≤ bound →
  Deck.select_stage get_test_card same self (VInt z)
    = Ok (List.filter (λ c, bool_decide (attr c = z)) self).
Proof.
  intros Hz.
  change (Deck.select_stage get_test_card same self (VInt z))
    with (Deck.select_stage get_test_card same self (VList (VInt <$> [z]))).
  rewrite select_stage_ints; [|done|constructor; [lia|constructor]].
  unfold selected_by, included, excluded. cbn [List.filter].
  destruct (Z.ltb_spec 0 z), (Z.ltb_spec z 0); try lia.
  cbn. rewrite app_nil_r. f_equal. apply List.filter_ext. intros c.
  by rewrite andb_true_r.
Qed.

End SelectStage.

Lemma get_test_card_rank_int (z : Z) :
  1 ≤ z ≤ 13 → ∃ t, Deck.get_test_card_rank (VInt z) = Ok t ∧ rank t = z.
Proof.
  intros Hz. exists (card_of z 1). unfold Deck.get_test_card_rank.
  destruct (Z.leb_spec 1 z), (Z.leb_spec z 13); try lia. cbn [andb].
  unfold Card.new, Card.__init__. cbn [is_int_or_str andb negb mbind result_bind].
  destruct (Z.leb_spec 1 z), (Z.leb_spec z 13); try lia. done.
Qed.

Lemma get_test_card_suit_int (z : Z) :
  1 ≤ z ≤ 4 → ∃ t, Deck.get_test_card_suit (VInt z) = Ok t ∧ suit t = z.
Proof.
  intros Hz. exists (card_of 1 z). unfold Deck.get_test_card_suit.
  destruct (Z.leb_spec 1 z), (Z.leb_spec z 4); try lia. cbn [andb].
  unfold Card.new, Card.__init__. cbn [is_int_or_str andb negb mbind result_bind].
  destruct (Z.leb_spec 1 z), (Z.leb_spec z 4); try lia. done.
Qed.

(** X26: with scalar criteria [select] is a filter.  Each of rank (1 to 13),
    suit (1 to 4), color and face-card flag is given or left out; the deck
    returned holds the cards that meet every criterion given, in the order of
    the deck, and all the cards when none is given. *)
Theorem select_is_a_filter (self : list card) (rk st : option Z)
    (co fc : option bool) :
  from_option (λ r, 1 ≤ r ≤ 13) True rk →
  from_option (λ s, 1 ≤ s ≤ 4) True st →
  Deck.select set_iter self (int_criterion rk) (int_criterion st)
    (bool_criterion co) (bool_criterion fc)
  = Ok (List.filter (λ c, meets rk (rank c) && meets st (suit c)
                          && meets co (color c) && meets fc (face_card c))
                    self).
Proof.
  intros Hrk Hst. unfold Deck.select.
  assert (Hall : ∀ l : list card, List.filter (λ _, true) l = l).
  { intros l. by apply forallb_filter_id, forallb_forall. }
  assert (Hr : Deck.select_stage Deck.get_test_card_rank Card.same_rank self
                 (int_criterion rk)
               = Ok (List.filter (λ c, meets rk (rank c)) self)).
  { destruct rk as [r|]; cbn [int_criterion meets from_option] in *.
    - apply (select_stage_scalar _ _ rank 13 get_test_card_rank_int); [done|done].
    - cbn. by rewrite Hall. }
  rewrite Hr. cbn [mbind result_bind].
  assert (Hs : ∀ l, Deck.select_stage Deck.get_test_card_suit Card.same_suit l
                 (int_criterion st)
               = Ok (List.filter (λ c, meets st (suit c)) l)).
  { intros l. destruct st as [s|]; cbn [int_criterion meets from_option] in *.
    - apply (select_stage_scalar _ _ suit 4 get_test_card_suit_int); [done|done].
    - cbn. by rewrite Hall. }
  rewrite Hs. cbn [mbind result_bind].
  assert (Hc : ∀ l, (match bool_criterion co with
                     | VNone => Ok l
                     | VStr s =>
                         if negb (bool_decide (s = "Black") || bool_decide (s = "Red"))
                         then Raise ValueError
                         else filterM (λ card, Card.has_color card (bool_criterion co)) l
                     | VBool _ => filterM (λ card, Card.has_color card (bool_criterion co)) l
                     | _ => Raise TypeError
                     end) = Ok (List.filter (λ c, meets co (color c)) l)).
  { intros l. destruct co as [b|]; cbn [bool_criterion meets].
    - by apply filterM_pure.
    - by rewrite Hall. }
  rewrite Hc. cbn [mbind result_bind].
  assert (Hf : ∀ l, (match bool_criterion fc with
                     | VNone => Ok l
                     | VBool b =>
                         Ok (List.filter
                               (λ card, let '{| face_card := f |} := card in
                                        bool_decide (f = b)) l)
                     | _ => Raise TypeError
                     end) = Ok (List.filter (λ c, meets fc (face_card c)) l)).
  { intros l. destruct fc as [b|]; cbn [bool_criterion meets].
    - f_equal. apply List.filter_ext. by intros [].
    - by rewrite Hall. }
  rewrite Hf. cbn [mbind result_bind]. rewrite Deck_of_list.
  rewrite !filter_filter_and. f_equal. apply List.filter_ext. intros c.
  by rewrite !andb_assoc.
Qed.

(** X27: [select] with a collection of ranks.  For a list, not empty, of
    integers from 1 to 13 (inclusions) and from -13 to -1 (exclusions), the
    deck returned is, for each inclusion in the order given, the cards of that
    rank that are not of an excluded rank: a rank included twice gives its
    cards twice, an exclusion changes nothing unless it names an included
    rank, and without an inclusion the deck returned is empty. *)
Theorem select_rank_collection (self : list card) (crit : list Z) :
  crit ≠ [] →
  Forall (λ z, 1 ≤ Z.abs z ≤ 13) crit →
  Deck.select set_iter self (VList (VInt <$> crit)) VNone VNone VNone
    = Ok (selected_by rank crit self).
Proof.
  intros Hne Hcrit. unfold Deck.select.
  rewrite (select_stage_ints _ _ rank 13 get_test_card_rank_int); [|done..].
  cbn [mbind result_bind Deck.select_stage]. apply Deck_of_list.
Qed.

(** X28: [select] checks a criterion only when it has a card to test.  A
    rank above 13 makes [select] raise [ValueError] on a deck with a card and
    return an empty deck on an empty deck; an empty list or tuple of ranks
    makes it raise [UnboundLocalError] on every deck. *)
Theorem select_edge_criteria (self : list card) (z : Z) :
  13 < z →
  Deck.select set_iter self (VInt z) VNone VNone VNone
    = match self with [] => Ok [] | _ => Raise ValueError end ∧
  Deck.select set_iter self (VList []) VNone VNone VNone
    = Raise UnboundLocalError ∧
  Deck.select set_iter self (VTuple []) VNone VNone VNone
    = Raise UnboundLocalError.
Proof.
  intros Hz. split_and!; [|done..].
  unfold Deck.select, Deck.select_stage.
  cbn [Deck.criteria_list mbind result_bind Deck.separate_exclusions].
  destruct (Z.ltb_spec z 0); [lia|]. cbn [foldM mbind result_bind].
  destruct self as [|c self]; [done|].
  cbn [filterM]. unfold Deck.get_test_card_rank.
  destruct (Z.leb_spec z 13); [lia|]. rewrite andb_false_r.
  destruct (Z.eqb_spec z 0); [lia|]. done.
Qed.

(** *** Copies, equality, concatenation and repetition *)

Lemma card_copy_same (c : card) : card_copy c = Ok c.
Proof. by destruct c as [[] r s co f]. Qed.

Lemma list_eq_Forall2 (l1 l2 : list card) :
  list_eq card_eqb l1 l2 = true ↔ Forall2 (λ x y, card_eqb x y = true) l1 l2.
Proof.
  unfold list_eq. split.
  - case_bool_decide as Hlen; [|done]. clear Hlen. revert l2.
    induction l1 as [|x l1 IH]; intros [|y l2] H; try done;
      try (by constructor).
    cbn [all_equal] in H. apply andb_true_iff in H as [Hxy H].
    constructor; [done | by apply IH].
  - intros H. rewrite bool_decide_eq_true_2 by (by eapply Forall2_length).
    induction H as [|x y l1 l2 Hxy _ IH]; [done|].
    cbn [all_equal]. by rewrite Hxy, IH.
Qed.

(** X29: a copy of a deck equals the deck.  [copy()] returns a deck with
    the same cards in the same order, for the empty deck an empty deck; a
    deck is [==] itself, and two decks are [==] exactly when they have as many
    cards and the cards at the same place are [==]. *)
Theorem deck_copy_and_equality (self other : list card) :
  Deck.copy set_iter self = Ok self ∧
  Deck.__eq__ self (VDeck self) = true ∧
  (Deck.__eq__ self (VDeck other) = true ↔
   Forall2 (λ x y, Card.__eq__ x (VCard y) = Ok true) self other).
Proof.
  split_and!.
  - unfold Deck.copy. rewrite (mapM_map _ id) by (intros; apply card_copy_same).
    cbn [mbind result_bind]. rewrite list_fmap_id. apply Deck_of_list.
  - cbn [Deck.__eq__]. apply list_eq_Forall2, Forall_Forall2_diag, Forall_forall.
    intros x _. apply card_eqb_refl.
  - cbn [Deck.__eq__]. rewrite list_eq_Forall2.
    split; intros H; induction H as [|x y l1 l2 Hxy _ IH]; constructor;
      try done; rewrite Card_eq_card_eqb in *; congruence.
Qed.

Lemma repeat_list_succ (l : list card) (n : Z) :
  0 ≤ n → repeat_list l (n + 1) = l ++ repeat_list l n.
Proof.
  intros Hn. unfold repeat_list.
  replace (Z.to_nat (n + 1)) with (S (Z.to_nat n)) by lia. done.
Qed.

Lemma repeat_list_len (l : list card) (n : Z) :
  0 ≤ n → len (repeat_list l n) = n * len l.
Proof.
  intros Hn. rewrite <- (Z2Nat.id n) at 2 by done.
  unfold repeat_list, len. induction (Z.to_nat n) as [|m IH]; [done|].
  cbn [replicate concat]. rewrite length_app. lia.
Qed.

(** X30: [+] and [*] on decks.  [a + b] holds the cards of [a] then the
    cards of [b]; for [n >= 0], [a * n] holds [n * len(a)] cards, [a * 0] is
    an empty deck and [a * (n + 1)] is [a + (a * n)]; a negative [n] raises
    [ValueError]. *)
Theorem deck_add_and_mul (self other : list card) (n : Z) :
  0 ≤ n →
  Deck.__add__ set_iter self (VDeck other) = Ok (self ++ other) ∧
  Deck.__mul__ set_iter self (VInt 0) = Ok [] ∧
  Deck.__mul__ set_iter self (VInt (- n - 1)) = Raise ValueError ∧
  ∃ d,
    Deck.__mul__ set_iter self (VInt n) = Ok d ∧
    Deck.__len__ d = n * Deck.__len__ self ∧
    Deck.__mul__ set_iter self (VInt (n + 1))
      = Deck.__add__ set_iter self (VDeck d).
Proof.
  intros Hn. unfold Deck.__add__, Deck.__mul__, Deck.__len__.
  rewrite !Deck_of_list.
  destruct (Z.ltb_spec n 0), (Z.ltb_spec (n + 1) 0), (Z.ltb_spec (- n - 1) 0);
    try lia.
  split_and!; [done..|].
  exists (repeat_list self n). rewrite !Deck_of_list.
  split_and!; [done| by apply repeat_list_len | by rewrite repeat_list_succ].
Qed.

End DeckProperties.

(** * Closed instances of the further properties *)


Lemma card_names_round_trip_witness :
  1 ≤ 12 ≤ 13 ∧ 1 ≤ 1 ≤ 4 ∧
  ∃ c rank_name suit_name,
    Card.new [VInt 12; VInt 1] = Ok c ∧
    card_get_rank c = Ok (VStr rank_name) ∧
    card_get_suit c = Ok (VStr suit_name) ∧
    Card.new [VStr rank_name; VStr suit_name] = Ok c.
Proof.
  assert (H1 : 1 ≤ 12 ≤ 13) by lia. assert (H2 : 1 ≤ 1 ≤ 4) by lia.
  exact (conj H1 (conj H2 (card_names_round_trip 12 1 H1 H2))).
Defined.

Lemma same_rank_other_suit_witness :
  rank ace_of_clubs = rank (card_of 1 4) ∧
  suit ace_of_clubs ≠ suit (card_of 1 4) ∧
  Card.__lt__ Card.default_config ace_of_clubs (VCard (card_of 1 4)) = Ok false ∧
  Card.__lt__ Card.default_config (card_of 1 4) (VCard ace_of_clubs) = Ok false ∧
  Card.__le__ Card.default_config ace_of_clubs (VCard (card_of 1 4)) = Ok true ∧
  Card.__ge__ Card.default_config ace_of_clubs (VCard (card_of 1 4)) = Ok true ∧
  Card.__eq__ ace_of_clubs (VCard (card_of 1 4)) = Ok false.
Proof.
  assert (H1 : rank ace_of_clubs = rank (card_of 1 4)) by reflexivity.
  assert (H2 : suit ace_of_clubs ≠ suit (card_of 1 4)) by (cbn; lia).
  exact (conj H1 (conj H2 (same_rank_other_suit Card.default_config
                             ace_of_clubs (card_of 1 4) H1 H2))).
Defined.

Lemma ace_and_joker_in_the_order_witness :
  rank ace_of_clubs = 1 ∧ rank black_joker = 0 ∧ 2 ≤ rank ten_of_spades ≤ 13 ∧
  ∃ cfg',
    Card.set_ace_worth_1 (VBool true) Card.default_config = Ok cfg' ∧
    Card.get_ace_value cfg' = 1 ∧
    Card.__lt__ cfg' ace_of_clubs (VCard ten_of_spades) = Ok true ∧
    Card.__gt__ cfg' ace_of_clubs (VCard ten_of_spades) = Ok false ∧
    Card.__lt__ cfg' black_joker (VCard ten_of_spades) = Ok true ∧
    Card.__lt__ cfg' black_joker (VCard ace_of_clubs) = Ok true.
Proof.
  assert (H1 : rank ace_of_clubs = 1) by reflexivity.
  assert (H2 : rank black_joker = 0) by reflexivity.
  assert (H3 : 2 ≤ rank ten_of_spades ≤ 13) by (cbn; lia).
  exact (conj H1 (conj H2 (conj H3
           (ace_and_joker_in_the_order Card.default_config true ace_of_clubs
              black_joker ten_of_spades H1 H2 H3)))).
Defined.

Lemma deck_of_grouped_arguments_witness :
  [VCard ace_of_clubs; VList (VCard <$> [two_of_clubs; three_of_clubs]);
   VDeck [black_joker]] ≠ [] ∧
  Forall2 is_group
    [VCard ace_of_clubs; VList (VCard <$> [two_of_clubs; three_of_clubs]);
     VDeck [black_joker]]
    [[ace_of_clubs]; [two_of_clubs; three_of_clubs]; [black_joker]] ∧
  Deck.__init__ an_iteration_order
    [VCard ace_of_clubs; VList (VCard <$> [two_of_clubs; three_of_clubs]);
     VDeck [black_joker]]
  = Ok (concat [[ace_of_clubs]; [two_of_clubs; three_of_clubs]; [black_joker]]).
Proof.
  assert (H1 : [VCard ace_of_clubs;
                VList (VCard <$> [two_of_clubs; three_of_clubs]);
                VDeck [black_joker]] ≠ []) by discriminate.
  assert (H2 : Forall2 is_group
                 [VCard ace_of_clubs;
                  VList (VCard <$> [two_of_clubs; three_of_clubs]);
                  VDeck [black_joker]]
                 [[ace_of_clubs]; [two_of_clubs; three_of_clubs]; [black_joker]]).
  { constructor; [apply group_card|].
    constructor; [apply group_list|].
    constructor; [apply group_deck|constructor]. }
  exact (conj H1 (conj H2
           (deck_of_grouped_arguments an_iteration_order _ _ H1 H2))).
Defined.

Lemma non_card_argument_raises_TypeError_witness :
  Exists (λ v, is_card v = false)
    (_flatten_nested_collections [VList [VCard ace_of_clubs; VList []]]) ∧
  - len three_clubs ≤ 0 ≤ len three_clubs ∧
  Deck.__init__ an_iteration_order [VList [VCard ace_of_clubs; VList []]]
    = Raise TypeError ∧
  Deck.add three_clubs [VList [VCard ace_of_clubs; VList []]] VNone
    = Raise TypeError ∧
  Deck.add three_clubs [VList [VCard ace_of_clubs; VList []]] (VInt 0)
    = Raise TypeError.
Proof.
  assert (H1 : Exists (λ v, is_card v = false)
                 (_flatten_nested_collections
                    [VList [VCard ace_of_clubs; VList []]]))
    by (apply Exists_cons_tl, Exists_cons_hd; reflexivity).
  assert (H2 : - len three_clubs ≤ 0 ≤ len three_clubs)
    by (cbv [len three_clubs length]; lia).
  exact (conj H1 (conj H2
           (non_card_argument_raises_TypeError an_iteration_order three_clubs
              [VList [VCard ace_of_clubs; VList []]] 0 H1 H2))).
Defined.

Lemma add_inserts_block_witness :
  Forall2 is_group [VTuple (VCard <$> [black_joker; red_joker])]
    [[black_joker; red_joker]] ∧
  - len three_clubs ≤ 1 ≤ len three_clubs ∧
  Deck.add three_clubs [VTuple (VCard <$> [black_joker; red_joker])] (VInt 1)
    = Ok (take (Z.to_nat (resolve (len three_clubs) 1)) three_clubs
          ++ concat [[black_joker; red_joker]]
          ++ drop (Z.to_nat (resolve (len three_clubs) 1)) three_clubs).
Proof.
  assert (H1 : Forall2 is_group [VTuple (VCard <$> [black_joker; red_joker])]
                 [[black_joker; red_joker]])
    by (constructor; [apply group_tuple | constructor]).
  assert (H2 : - len three_clubs ≤ 1 ≤ len three_clubs)
    by (cbv [len three_clubs length]; lia).
  exact (conj H1 (conj H2
           (proj1 (add_inserts_block three_clubs _ _ 1 H1 H2)))).
Defined.

Lemma setitem_then_getitem_witness :
  - len three_clubs ≤ -1 < len three_clubs ∧
  ∃ self',
    Deck.__setitem__ three_clubs (VInt (-1)) (VCard red_joker) = Ok self' ∧
    Deck.__getitem__ self' (VInt (-1)) = Ok (VCard red_joker).
Proof.
  assert (H : - len three_clubs ≤ -1 < len three_clubs)
    by (cbv [len three_clubs length]; lia).
  split; [exact H|].
  destruct (setitem_then_getitem three_clubs (-1) red_joker H)
    as (self' & Hset & _ & Hget & _).
  exists self'. exact (conj Hset Hget).
Defined.

Lemma index_finds_first_equal_card_witness :
  Deck.__contains__ three_clubs (VCard two_of_clubs) = Ok true ∧
  ∃ k, Deck.index three_clubs [VCard two_of_clubs] = Ok (VInt k)
       ∧ 0 ≤ k < len three_clubs.
Proof.
  assert (H : Deck.__contains__ three_clubs (VCard two_of_clubs) = Ok true)
    by reflexivity.
  split; [exact H|].
  destruct (index_finds_first_equal_card three_clubs two_of_clubs H)
    as (k & y & Hidx & Hk & _).
  exists k. exact (conj Hidx Hk).
Defined.

Lemma absent_card_raises_ValueError_witness :
  Deck.__contains__ three_clubs (VCard red_joker) = Ok false ∧
  Deck.index three_clubs [VCard red_joker] = Raise ValueError ∧
  Deck.remove three_clubs [VCard red_joker] = Raise ValueError.
Proof.
  assert (H : Deck.__contains__ three_clubs (VCard red_joker) = Ok false)
    by reflexivity.
  exact (conj H (absent_card_raises_ValueError three_clubs red_joker H)).
Defined.

Lemma contains_non_card_witness :
  is_card (VInt 5) = false ∧
  (∀ d, VInt 5 ≠ VDeck d) ∧
  Deck.__contains__ three_clubs (VInt 5) = Raise ValueError.
Proof.
  assert (H1 : is_card (VInt 5) = false) by reflexivity.
  assert (H2 : ∀ d, VInt 5 ≠ VDeck d) by (intros d; discriminate).
  exact (conj H1 (conj H2 (contains_non_card three_clubs (VInt 5) H1 H2))).
Defined.


Lemma draw_one_card_witness :
  - len [ace_of_clubs; red_joker] ≤ -1 < len [ace_of_clubs; red_joker] ∧
  ∃ c,
    getitem [ace_of_clubs; red_joker]
      (resolve (len [ace_of_clubs; red_joker]) (-1)) = Some c ∧
    Deck.draw an_iteration_order [ace_of_clubs; red_joker] [VInt (-1)]
      = Ok (returned_by_draw c,
            delete (Z.to_nat (resolve (len [ace_of_clubs; red_joker]) (-1)))
              [ace_of_clubs; red_joker]).
Proof.
  assert (H : - len [ace_of_clubs; red_joker] ≤ -1
              < len [ace_of_clubs; red_joker])
    by (cbv [len length]; lia).
  exact (conj H (draw_one_card an_iteration_order
                   [ace_of_clubs; red_joker] (-1) H)).
Defined.

Lemma draw_splits_the_deck_witness :
  [VList [VInt (-1); VInt 0]] ≠ [] ∧
  _flatten_nested_collections [VList [VInt (-1); VInt 0]] = VInt <$> [-1; 0] ∧
  Forall (λ i, - len three_clubs ≤ i < len three_clubs) [-1; 0] ∧
  NoDup (resolve (len three_clubs) <$> [-1; 0]) ∧
  ∃ v self',
    Deck.draw an_iteration_order three_clubs [VList [VInt (-1); VInt 0]]
      = Ok (v, self') ∧
    cards_of v = at_positions three_clubs [-1; 0] ∧
    self' = without_positions three_clubs [-1; 0] ∧
    cards_of v ++ self' ≡ₚ three_clubs.
Proof.
  assert (H1 : [VList [VInt (-1); VInt 0]] ≠ []) by discriminate.
  assert (H2 : _flatten_nested_collections [VList [VInt (-1); VInt 0]]
               = VInt <$> [-1; 0]) by reflexivity.
  assert (H3 : Forall (λ i, - len three_clubs ≤ i < len three_clubs) [-1; 0])
    by (repeat constructor; cbv [len three_clubs length]; lia).
  assert (H4 : NoDup (resolve (len three_clubs) <$> [-1; 0]))
    by (refine (bool_decide_unpack _ _); vm_compute; exact I).
  exact (conj H1 (conj H2 (conj H3 (conj H4
           (draw_splits_the_deck an_iteration_order three_clubs
              _ _ H1 H2 H3 H4))))).
Defined.

Lemma remove_card_removes_first_equal_witness :
  Deck.__contains__ three_clubs (VCard two_of_clubs) = Ok true ∧
  ∃ before y after,
    three_clubs = before ++ y :: after ∧
    Card.__eq__ y (VCard two_of_clubs) = Ok true ∧
    Forall (λ z, Card.__eq__ z (VCard two_of_clubs) = Ok false) before ∧
    Deck.remove three_clubs [VCard two_of_clubs] = Ok (before ++ after).
Proof.
  assert (H : Deck.__contains__ three_clubs (VCard two_of_clubs) = Ok true)
    by reflexivity.
  exact (conj H (remove_card_removes_first_equal three_clubs two_of_clubs H)).
Defined.

Lemma remove_same_card_repeatedly_witness :
  Deck.__contains__ three_clubs (VCard two_of_clubs) = Ok true ∧
  (1 ≤ 2)%nat ∧
  ∃ self',
    Deck.remove three_clubs (replicate 2 (VCard two_of_clubs)) = Ok self' ∧
    count_equal two_of_clubs self'
      = (count_equal two_of_clubs three_clubs - 2)%nat ∧
    others two_of_clubs self' = others two_of_clubs three_clubs ∧
    length self'
      = (length three_clubs - 2 `min` count_equal two_of_clubs three_clubs)%nat.
Proof.
  assert (H1 : Deck.__contains__ three_clubs (VCard two_of_clubs) = Ok true)
    by reflexivity.
  assert (H2 : (1 ≤ 2)%nat) by lia.
  exact (conj H1 (conj H2
           (remove_same_card_repeatedly three_clubs two_of_clubs 2 H1 H2))).
Defined.

Lemma get_random_samples_without_replacement_witness :
  small_heap !! 1%positive = Some [ace_of_clubs; two_of_clubs] ∧
  ∃ v h',
    Deck.get_random an_iteration_order 1%positive 1 (λ n, n) small_heap
      = Ok (v, h') ∧
    length (cards_of v)
      = (Z.to_nat 1 `min` length [ace_of_clubs; two_of_clubs])%nat ∧
    cards_of v ⊆ [ace_of_clubs; two_of_clubs] ∧
    (correct_attributes [ace_of_clubs; two_of_clubs]
     → cards_of v ⊆+ [ace_of_clubs; two_of_clubs]) ∧
    h' !! 1%positive = Some [ace_of_clubs; two_of_clubs].
Proof.
  assert (H : small_heap !! 1%positive = Some [ace_of_clubs; two_of_clubs])
    by (vm_compute; reflexivity).
  exact (conj H (get_random_samples_without_replacement an_iteration_order
                   small_heap 1%positive _ 1 (λ n, n) H)).
Defined.

Lemma draw_random_without_jokers_witness :
  Forall (λ c, cls c = CardT) three_clubs ∧
  ∃ v self',
    Deck.draw_random an_iteration_order three_clubs 2 (λ n, n) = Ok (v, self') ∧
    length (cards_of v) = (Z.to_nat 2 `min` length three_clubs)%nat ∧
    cards_of v ++ self' ≡ₚ three_clubs.
Proof.
  assert (H : Forall (λ c, cls c = CardT) three_clubs)
    by (repeat constructor).
  exact (conj H (draw_random_without_jokers an_iteration_order three_clubs 2
                   (λ n, n) H)).
Defined.

Lemma draw_random_with_joker_raises_TypeError_witness :
  Exists (λ c, cls c = JokerT) [ace_of_clubs; red_joker] ∧
  2 ≤ len [ace_of_clubs; red_joker] ≤ 2 ∧
  Deck.draw_random an_iteration_order [ace_of_clubs; red_joker] 2 (λ n, n)
    = Raise TypeError.
Proof.
  assert (H1 : Exists (λ c, cls c = JokerT) [ace_of_clubs; red_joker])
    by (apply Exists_cons_tl, Exists_cons_hd; reflexivity).
  assert (H2 : 2 ≤ len [ace_of_clubs; red_joker] ≤ 2)
    by (cbv [len length]; lia).
  exact (conj H1 (conj H2
           (draw_random_with_joker_raises_TypeError an_iteration_order
              [ace_of_clubs; red_joker] 2 (λ n, n) H1 H2))).
Defined.

Lemma select_is_a_filter_witness :
  from_option (λ r, 1 ≤ r ≤ 13) True (Some 2) ∧
  from_option (λ s, 1 ≤ s ≤ 4) True None ∧
  Deck.select an_iteration_order three_clubs (int_criterion (Some 2))
    (int_criterion None) (bool_criterion (Some false)) (bool_criterion None)
  = Ok (List.filter (λ c, meets (Some 2) (rank c) && meets None (suit c)
                          && meets (Some false) (color c)
                          && meets None (face_card c))
                    three_clubs).
Proof.
  assert (H1 : from_option (λ r, 1 ≤ r ≤ 13) True (Some 2)) by (cbn; lia).
  assert (H2 : from_option (λ s, 1 ≤ s ≤ 4) True (@None Z)) by exact I.
  exact (conj H1 (conj H2
           (select_is_a_filter an_iteration_order three_clubs (Some 2) None
              (Some false) None H1 H2))).
Defined.

Lemma select_rank_collection_witness :
  [2; -3; 2] ≠ [] ∧
  Forall (λ z, 1 ≤ Z.abs z ≤ 13) [2; -3; 2] ∧
  Deck.select an_iteration_order three_clubs (VList (VInt <$> [2; -3; 2]))
    VNone VNone VNone
  = Ok (selected_by rank [2; -3; 2] three_clubs).
Proof.
  assert (H1 : [2; -3; 2] ≠ []) by discriminate.
  assert (H2 : Forall (λ z, 1 ≤ Z.abs z ≤ 13) [2; -3; 2])
    by (repeat constructor; lia).
  exact (conj H1 (conj H2
           (select_rank_collection an_iteration_order three_clubs _ H1 H2))).
Defined.

Lemma select_edge_criteria_witness :
  13 < 14 ∧
  Deck.select an_iteration_order three_clubs (VInt 14) VNone VNone VNone
    = Raise ValueError ∧
  Deck.select an_iteration_order [] (VInt 14) VNone VNone VNone = Ok [].
Proof.
  assert (H : 13 < 14) by lia.
  exact (conj H (conj (proj1 (select_edge_criteria an_iteration_order
                                three_clubs 14 H))
                      (proj1 (select_edge_criteria an_iteration_order
                                [] 14 H)))).
Defined.

Lemma deck_add_and_mul_witness :
  0 ≤ 2 ∧
  ∃ d,
    Deck.__mul__ an_iteration_order three_clubs (VInt 2) = Ok d ∧
    Deck.__len__ d = 2 * Deck.__len__ three_clubs ∧
    Deck.__mul__ an_iteration_order three_clubs (VInt (2 + 1))
      = Deck.__add__ an_iteration_order three_clubs (VDeck d).
Proof.
  assert (H : 0 ≤ 2) by lia.
  exact (conj H (proj2 (proj2 (proj2
           (deck_add_and_mul an_iteration_order three_clubs [] 2 H))))).
Defined.
